(** * Poseidon: the scheduling bridge of cmd/poseidon/poseidon.go

    A shallow embedding of [schedule] (the scheduling loop and its per-delta
    switch) and of [WaitForFirmamentService] (the readiness gate), with the
    process state passed explicitly.  The two registry maps of package
    k8sclient are finite maps; what the code does to the outside (lock
    operations, orchestrator calls, log lines, sleeping) is appended to a
    chronological trace, the RPCs to the engine are counted, and
    [glog.Fatalf] ends the process.  The observers that write the two maps
    run in other goroutines and are not part of this development: the maps
    are the ones the loop finds when it takes the read locks. *)

From Stdlib Require Import ZArith Lia.
From stdpp Require Import base gmap strings list.

Open Scope Z_scope.

(** ** Data *)

(** k8sclient.PodIdentifier: the value type of [TaskIDToPod]. *)
Record PodIdentifier := mkPodIdentifier {
  Name : string;
  Namespace : string }.

(** The zero value a Go map lookup yields for a missing key. *)
Definition zeroPodIdentifier : PodIdentifier := mkPodIdentifier "" "".

(** The flags registered by [init], with their defaults. *)
Record Flags := mkFlags {
  schedulerName : string;
  firmamentAddress : string;
  firmamentPort : string;
  pprofAddress : string;
  kubeConfig : string;
  kubeVersion : string;
  statsServerAddress : string;
  schedulingInterval : Z;
  enablePprof : bool }.

Definition defaultFlags : Flags :=
  mkFlags "poseidon" "firmament-service.kube-system" "9090" "0.0.0.0:8989"
          "kubeconfig.cfg" "1.6" "0.0.0.0:9091" 10 false.

(** time.Duration counts nanoseconds. *)
Definition Second : Z := 1000000000.
Definition Minute : Z := 60 * Second.

Inductive Mutex := PodMux | NodeMux.

(** Errors of package wait, and of a condition function. *)
Inductive error :=
| ErrWaitTimeout
| ErrCondition (msg : string).

(** The five [glog.Fatalf] sites, with the arguments of their format
    strings. *)
Inductive FatalMsg :=
| PlacedWithoutPod (task : N)
| PlacedWithoutNode (task : N) (res : string)
| PreemptedWithoutPod (task : N)
| UnexpectedType (ty : Z)
| TimedOutWaiting (err : error).

Inductive Event :=
| RLock (m : Mutex)
| RUnlock (m : Mutex)
| BindPodToNode (name ns node : string)
| DeletePod (name ns : string)
| Infof (ndeltas : nat)
| Fatalf (msg : FatalMsg)
| Slept (d : Z).

(** The process state: the two maps of k8sclient, the flag variables, a
    clock in nanoseconds, the number of RPCs issued so far and the trace. *)
Record World := mkWorld {
  TaskIDToPod : gmap N PodIdentifier;
  ResIDToNode : gmap string string;
  flags : Flags;
  now : Z;
  checks : nat;
  schedules : nat;
  trace : list Event }.

Definition emit (e : Event) (w : World) : World :=
  mkWorld (TaskIDToPod w) (ResIDToNode w) (flags w) (now w) (checks w)
          (schedules w) (trace w ++ [e]).

Definition advance (d : Z) (w : World) : World :=
  mkWorld (TaskIDToPod w) (ResIDToNode w) (flags w) (now w + d) (checks w)
          (schedules w) (trace w).

Definition advance_to (t : Z) (w : World) : World :=
  mkWorld (TaskIDToPod w) (ResIDToNode w) (flags w) (Z.max (now w) t)
          (checks w) (schedules w) (trace w).

Definition count_check (w : World) : World :=
  mkWorld (TaskIDToPod w) (ResIDToNode w) (flags w) (now w) (S (checks w))
          (schedules w) (trace w).

Definition count_schedule (w : World) : World :=
  mkWorld (TaskIDToPod w) (ResIDToNode w) (flags w) (now w) (checks w)
          (S (schedules w)) (trace w).

(** ** The process monad

    A computation either returns to its caller with a value, or the process
    has exited with a status (what [glog.Fatalf] does, through os.Exit). *)

Inductive Res (A : Type) :=
| Ret (a : A) (w : World)
| Exited (status : Z) (w : World).
Arguments Ret {A} a w.
Arguments Exited {A} status w.

Definition Proc (A : Type) : Type := World -> Res A.

#[global] Instance Proc_ret : MRet Proc := fun A a w => Ret a w.

#[global] Instance Proc_bind : MBind Proc := fun A B k m w =>
  match m w with
  | Ret a w' => k a w'
  | Exited s w' => Exited s w'
  end.

Definition world_of {A} (r : Res A) : World :=
  match r with Ret _ w => w | Exited _ w => w end.

(** Whether control came back to the caller. *)
Definition returned {A} (r : Res A) : bool :=
  match r with Ret _ _ => true | Exited _ _ => false end.

Definition log (e : Event) : Proc unit := fun w => Ret tt (emit e w).

Definition when (b : bool) (m : Proc unit) : Proc unit :=
  if b then m else mret tt.

(** ** The packages the program calls into *)

Module glog.

(** [glog.Fatalf] writes the message and exits with status 255. *)
Definition Fatalf (msg : FatalMsg) : Proc unit :=
  fun w => Exited 255 (emit (Fatalf msg) w).

Definition Infof (n : nat) : Proc unit := log (Infof n).

End glog.

Module k8sclient.

(** [v, ok := m[k]] on the two registry maps. *)
Definition lookupTaskIDToPod (task : N) : Proc (PodIdentifier * bool) :=
  fun w => match TaskIDToPod w !! task with
           | Some p => Ret (p, true) w
           | None => Ret (zeroPodIdentifier, false) w
           end.

Definition lookupResIDToNode (res : string) : Proc (string * bool) :=
  fun w => match ResIDToNode w !! res with
           | Some n => Ret (n, true) w
           | None => Ret (""%string, false) w
           end.

Definition BindPodToNode (name ns node : string) : Proc unit :=
  log (BindPodToNode name ns node).

Definition DeletePod (name ns : string) : Proc unit :=
  log (DeletePod name ns).

End k8sclient.

Module firmament.

(** Modelled from the spec: the numeric values of the generated enum
    SchedulingDelta_ChangeType (an int32) are declared in package
    firmament, which is not part of the sources at hand; the spec gives
    kind: enum{PLACE=0, PREEMPT=1, MIGRATE=2, NOOP=3}. *)
Definition SchedulingDelta_PLACE : Z := 0.
Definition SchedulingDelta_PREEMPT : Z := 1.
Definition SchedulingDelta_MIGRATE : Z := 2.
Definition SchedulingDelta_NOOP : Z := 3.

(** One scheduling decision: the wire type carries the kind as an int32,
    so values outside the four named ones can arrive. *)
Record SchedulingDelta := mkDelta {
  GetType : Z;
  GetTaskId : N;
  GetResourceId : string }.

(** The engine as the bridge sees it: what the n-th health check answers
    (the flag and the error of [firmament.Check]) and the n-th batch handed
    out by [firmament.Schedule]. *)
Record FirmamentSchedulerClient := mkClient {
  health : nat -> bool * option string;
  batches : nat -> list SchedulingDelta }.

(** [firmament.Check(fc, serviceReq)]: the answer of the next health check. *)
Definition Check (fc : FirmamentSchedulerClient) : Proc (bool * option string) :=
  fun w => Ret (health fc (checks w)) (count_check w).

(** [firmament.Schedule(fc)]: the next batch the engine hands out. *)
Definition Schedule (fc : FirmamentSchedulerClient) : Proc (list SchedulingDelta) :=
  fun w => Ret (batches fc (schedules w)) (count_schedule w).

End firmament.
Import firmament.

Module config.

(** Modelled from the spec: package config is not part of the sources at
    hand; the scheduling-loop interval is the value supplied at process
    start, here the flag [schedulingInterval] (in seconds). *)
Definition GetSchedulingInterval : Proc Z :=
  fun w => Ret (schedulingInterval (flags w)) w.

End config.

(** int64 arithmetic: a result outside the range wraps around. *)
Definition wrap64 (z : Z) : Z := (z + 2 ^ 63) mod 2 ^ 64 - 2 ^ 63.

(** [time.Sleep(d)]: the call is recorded with its argument; the process is
    paused for [d], and not at all when [d] is zero or negative. *)
Definition time_Sleep (d : Z) : Proc unit :=
  fun w => Ret tt (emit (Slept d) (advance (Z.max 0 d) w)).

(** Time passing while the process is blocked on a channel. *)
Definition elapse (d : Z) : Proc unit := fun w => Ret tt (advance d w).
Definition elapse_until (t : Z) : Proc unit := fun w => Ret tt (advance_to t w).
Definition time_Now : Proc Z := fun w => Ret (now w) w.

Module wait.

(** A condition function: done, or an error that stops the polling. *)
Abbreviation ConditionFunc := (Proc (bool * option error)).

(** The number of ticks the poller's ticker delivers before its timer
    closes the channel. *)
Definition ticks (interval timeout : Z) : nat := Z.to_nat (timeout / interval).

(** [WaitFor]: receive from the poller's channel, then run the condition;
    after the receive that finds the channel closed the condition is run
    once more.  The condition is taken to answer before the next tick. *)
Fixpoint WaitFor (n : nat) (interval deadline : Z) (fn : ConditionFunc)
  : Proc (option error) :=
  match n with
  | S n' =>
      elapse interval ;;
      '(ok, err) ← fn ;
      match err with
      | Some e => mret (Some e)
      | None => if ok : bool then mret (@None error)
                else WaitFor n' interval deadline fn
      end
  | O =>
      elapse_until deadline ;;
      '(ok, err) ← fn ;
      match err with
      | Some e => mret (Some e)
      | None => if ok : bool then mret (@None error)
                else mret (Some ErrWaitTimeout)
      end
  end.

(** [PollImmediate] of k8s.io/apimachinery/pkg/util/wait (a library the
    program links, with a non-zero timeout): the condition is checked
    first, and only then does the poller start. *)
Definition PollImmediate (interval timeout : Z) (condition : ConditionFunc)
  : Proc (option error) :=
  '(done, err) ← condition ;
  match err with
  | Some e => mret (Some e)
  | None =>
      if done : bool then mret (@None error)
      else (start ← time_Now ;
            WaitFor (ticks interval timeout) interval (start + timeout) condition)
  end.

End wait.

(** ** The scheduling loop *)

(** The body of the switch statement of [schedule], for one delta. *)
Definition dispatch (delta : SchedulingDelta) : Proc unit :=
  let ty := GetType delta in
  if ty =? SchedulingDelta_PLACE then
    log (RLock PodMux) ;;
    '(podIdentifier, ok) ← k8sclient.lookupTaskIDToPod (GetTaskId delta) ;
    log (RUnlock PodMux) ;;
    when (negb ok) (glog.Fatalf (PlacedWithoutPod (GetTaskId delta))) ;;
    log (RLock NodeMux) ;;
    '(nodeName, ok) ← k8sclient.lookupResIDToNode (GetResourceId delta) ;
    log (RUnlock NodeMux) ;;
    when (negb ok)
      (glog.Fatalf (PlacedWithoutNode (GetTaskId delta) (GetResourceId delta))) ;;
    k8sclient.BindPodToNode (Name podIdentifier) (Namespace podIdentifier) nodeName
  else if (ty =? SchedulingDelta_PREEMPT) || (ty =? SchedulingDelta_MIGRATE) then
    log (RLock PodMux) ;;
    '(podIdentifier, ok) ← k8sclient.lookupTaskIDToPod (GetTaskId delta) ;
    log (RUnlock PodMux) ;;
    when (negb ok) (glog.Fatalf (PreemptedWithoutPod (GetTaskId delta))) ;;
    k8sclient.DeletePod (Name podIdentifier) (Namespace podIdentifier)
  else if ty =? SchedulingDelta_NOOP then
    mret tt
  else
    glog.Fatalf (UnexpectedType ty).

(** [for _, delta := range deltas.GetDeltas() { switch ... }]. *)
Fixpoint for_range (deltas : list SchedulingDelta) : Proc unit :=
  match deltas with
  | [] => mret tt
  | delta :: rest => dispatch delta ;; for_range rest
  end.

(** One turn of the outer [for] of [schedule].  The duration handed to
    [time.Sleep] is a product of [time.Duration] values, that is of int64:
    it wraps around when it leaves the range. *)
Definition schedule_iteration (fc : FirmamentSchedulerClient) : Proc unit :=
  deltas ← firmament.Schedule fc ;
  glog.Infof (length deltas) ;;
  for_range deltas ;;
  interval ← config.GetSchedulingInterval ;
  time_Sleep (wrap64 (interval * Second)).

(** [schedule] never returns; [n] bounds the number of turns observed. *)
Fixpoint schedule (fc : FirmamentSchedulerClient) (n : nat) : Proc unit :=
  match n with
  | O => mret tt
  | S n' => schedule_iteration fc ;; schedule fc n'
  end.

(** ** The readiness gate *)

(** The closure handed to [wait.PollImmediate]. *)
Definition probe (fc : FirmamentSchedulerClient) : wait.ConditionFunc :=
  '(ok, _) ← firmament.Check fc ;
  if negb ok then mret (false, @None error) else mret (true, @None error).

Definition WaitForFirmamentService (fc : FirmamentSchedulerClient) : Proc unit :=
  err ← wait.PollImmediate (2 * Second) (10 * Minute) (probe fc) ;
  match err with
  | Some e => glog.Fatalf (TimedOutWaiting e)
  | None => mret tt
  end.

(** ** Reading traces *)

Definition is_k8s_call (e : Event) : bool :=
  match e with BindPodToNode _ _ _ | DeletePod _ _ => true | _ => false end.

Definition is_bind (e : Event) : bool :=
  match e with BindPodToNode _ _ _ => true | _ => false end.

Definition is_delete (e : Event) : bool :=
  match e with DeletePod _ _ => true | _ => false end.

(** The orchestrator calls of a trace, in order. *)
Definition k8s_calls (evs : list Event) : list Event := List.filter is_k8s_call evs.

(** What a computation appends to the trace of the world it starts in. *)
Definition emitted {A} (m : Proc A) (w : World) : list Event :=
  drop (length (trace w)) (trace (world_of (m w))).

(** The world with further events appended to its trace. *)
Definition extend (evs : list Event) (w : World) : World :=
  mkWorld (TaskIDToPod w) (ResIDToNode w) (flags w) (now w) (checks w)
          (schedules w) (trace w ++ evs).

(** The world after [n] more health checks, at time [t]. *)
Definition polled (t : Z) (n : nat) (w : World) : World :=
  mkWorld (TaskIDToPod w) (ResIDToNode w) (flags w) t (checks w + n)
          (schedules w) (trace w).

Definition with_flags (f : Flags) (w : World) : World :=
  mkWorld (TaskIDToPod w) (ResIDToNode w) f (now w) (checks w) (schedules w)
          (trace w).

(** ** Summaries used in the proofs *)

(** What [dispatch] does is a function of the two maps and the delta: whether
    control comes back, and the events appended.  [dispatch_outcome] below
    proves it equal to the code. *)
Definition outcome (pods : gmap N PodIdentifier) (nodes : gmap string string)
    (delta : SchedulingDelta) : bool * list Event :=
  let ty := GetType delta in
  let task := GetTaskId delta in
  let res := GetResourceId delta in
  if ty =? SchedulingDelta_PLACE then
    match pods !! task with
    | None => (false, [RLock PodMux; RUnlock PodMux; Fatalf (PlacedWithoutPod task)])
    | Some pod =>
        match nodes !! res with
        | None => (false, [RLock PodMux; RUnlock PodMux; RLock NodeMux;
                           RUnlock NodeMux; Fatalf (PlacedWithoutNode task res)])
        | Some node => (true, [RLock PodMux; RUnlock PodMux; RLock NodeMux;
                               RUnlock NodeMux;
                               BindPodToNode (Name pod) (Namespace pod) node])
        end
    end
  else if (ty =? SchedulingDelta_PREEMPT) || (ty =? SchedulingDelta_MIGRATE) then
    match pods !! task with
    | None => (false, [RLock PodMux; RUnlock PodMux; Fatalf (PreemptedWithoutPod task)])
    | Some pod => (true, [RLock PodMux; RUnlock PodMux;
                          DeletePod (Name pod) (Namespace pod)])
    end
  else if ty =? SchedulingDelta_NOOP then (true, [])
  else (false, [Fatalf (UnexpectedType ty)]).

Definition finish (o : bool * list Event) (w : World) : Res unit :=
  if o.1 then Ret tt (extend o.2 w) else Exited 255 (extend o.2 w).

(** The deltas of a batch that get dispatched: all of them, or those up to
    and including the first one on which the process exits. *)
Fixpoint applied (pods : gmap N PodIdentifier) (nodes : gmap string string)
    (deltas : list SchedulingDelta) : list SchedulingDelta :=
  match deltas with
  | [] => []
  | delta :: rest =>
      if (outcome pods nodes delta).1 then delta :: applied pods nodes rest
      else [delta]
  end.

(** The summary of a batch: whether the loop over it completes, and the
    events appended. *)
Fixpoint batch_outcome (pods : gmap N PodIdentifier) (nodes : gmap string string)
    (deltas : list SchedulingDelta) : bool * list Event :=
  match deltas with
  | [] => (true, [])
  | delta :: rest =>
      let o := outcome pods nodes delta in
      if o.1 then
        let r := batch_outcome pods nodes rest in (r.1, o.2 ++ r.2)
      else (false, o.2)
  end.

Definition same_registry (w w' : World) : Prop :=
  TaskIDToPod w' = TaskIDToPod w /\ ResIDToNode w' = ResIDToNode w.

(** A computation that leaves both maps as it found them, however it ends. *)
Definition reads_only {A} (m : Proc A) : Prop :=
  forall w, same_registry w (world_of (m w)).

(** The client whose failed health checks (those that come with an error)
    are replaced by a plain "not ready" answer. *)
Definition not_ready_on_error (fc : FirmamentSchedulerClient)
  : FirmamentSchedulerClient :=
  mkClient (fun i => match (health fc i).2 with
                     | Some _ => (false, None)
                     | None => health fc i
                     end)
           (batches fc).

(** ** Worlds and engines used in the examples *)

(** A world right after start-up: the given registry, default flags. *)
Definition world0 (pods : gmap N PodIdentifier) (nodes : gmap string string)
  : World := mkWorld pods nodes defaultFlags 0 0 0 [].

Definition podA : PodIdentifier := mkPodIdentifier "podA" "nsA".

Definition w5 : World :=
  world0 {[ 5%N := podA ]} {[ "r1"%string := "nodeX"%string ]}.

Definition w1 : World :=
  world0 {[ 1%N := podA ]} {[ "r1"%string := "nodeX"%string ]}.

Definition never_ready : FirmamentSchedulerClient :=
  mkClient (fun _ => (false, None)) (fun _ => []).

Definition always_ready : FirmamentSchedulerClient :=
  mkClient (fun _ => (true, None)) (fun _ => []).

(** Three health checks fail in transport, the fourth answers ready. *)
Definition flaky : FirmamentSchedulerClient :=
  mkClient (fun i => if (i <? 3)%nat then (false, Some "unavailable"%string)
                     else (true, None))
           (fun _ => []).

(** Flags that differ from the defaults in every field. *)
Definition otherFlags : Flags :=
  mkFlags "other" "firmament.example" "1" "127.0.0.1:1" "other.cfg" "1.9"
          "127.0.0.1:2" 1 true.

(** ** Start-up: [init] and [main] *)

(** [strings.Join]: the elements, with the separator between them. *)
Definition strings_Join (elems : list string) (sep : string) : string :=
  match elems with
  | [] => ""%string
  | first :: rest =>
      fold_left (fun acc s => String.append acc (String.append sep s)) rest first
  end.

(** What [init] does to the flag variables once [flag.Parse] has filled
    them: the address and the port are joined with a colon. *)
Definition init (parsed : Flags) : Flags :=
  mkFlags (schedulerName parsed)
          (strings_Join [firmamentAddress parsed; firmamentPort parsed] ":")
          (firmamentPort parsed) (pprofAddress parsed) (kubeConfig parsed)
          (kubeVersion parsed) (statsServerAddress parsed)
          (schedulingInterval parsed) (enablePprof parsed).

(** Modelled from the spec: package config is not part of the sources at
    hand; the engine address is the value supplied at process start, here
    the flag variable [firmamentAddress]. *)
Definition config_GetFirmamentAddress (w : World) : string :=
  firmamentAddress (flags w).

(** An unrecovered [panic]: the Go runtime ends the process with status 2. *)
Definition panic {A} (err : string) : Proc A := fun w => Exited 2 w.

(** A run of [main]: the address its first log line announces, and how the
    process fared. *)
Record Startup := mkStartup {
  announced : string;
  run : Res unit }.

(** [main], from its first line to [go schedule(fc)], followed by [n] turns
    of that goroutine.  [New] stands for [firmament.New]: the client for an
    address, or the error of dialling it.  The statistics server, the
    profiling server and [k8sclient.New] run beside the loop and are not
    part of this development. *)
Definition main (New : string -> FirmamentSchedulerClient + string) (n : nat)
    (w : World) : Startup :=
  let address := config_GetFirmamentAddress w in
  mkStartup address
    (match New address with
     | inr err => panic err w
     | inl fc => (WaitForFirmamentService fc ;; schedule fc n) w
     end).

(** ** Predicates on traces and engines *)

(** Which read lock the loop holds, if any; [Broken] once the discipline
    (one lock at a time, nothing else done while it is held) is violated. *)
Inductive LockState := Free | Held (m : Mutex) | Broken.

Definition Mutex_eqb (a b : Mutex) : bool :=
  match a, b with
  | PodMux, PodMux | NodeMux, NodeMux => true
  | _, _ => false
  end.

Definition lock_step (s : LockState) (e : Event) : LockState :=
  match s, e with
  | Free, RLock m => Held m
  | Held m, RUnlock m' => if Mutex_eqb m m' then Free else Broken
  | Free, RUnlock _ => Broken
  | Free, _ => Free
  | _, _ => Broken
  end.

Definition lock_scan (s : LockState) (evs : list Event) : LockState :=
  fold_left lock_step evs s.

(** Where an orchestrator call of a batch comes from: a delta of the batch
    whose identifiers the registry maps to the arguments of the call. *)
Definition call_from_registry (w : World) (deltas : list SchedulingDelta)
    (e : Event) : Prop :=
  match e with
  | BindPodToNode name ns node =>
      exists delta, In delta deltas
        /\ GetType delta = SchedulingDelta_PLACE
        /\ TaskIDToPod w !! GetTaskId delta = Some (mkPodIdentifier name ns)
        /\ ResIDToNode w !! GetResourceId delta = Some node
  | DeletePod name ns =>
      exists delta, In delta deltas
        /\ (GetType delta = SchedulingDelta_PREEMPT
            \/ GetType delta = SchedulingDelta_MIGRATE)
        /\ TaskIDToPod w !! GetTaskId delta = Some (mkPodIdentifier name ns)
  | _ => True
  end.

Definition is_fatal (e : Event) : bool :=
  match e with Fatalf _ => true | _ => false end.

Definition is_slept (e : Event) : bool :=
  match e with Slept _ => true | _ => false end.

(** The world with another node map. *)
Definition with_nodes (nodes : gmap string string) (w : World) : World :=
  mkWorld (TaskIDToPod w) nodes (flags w) (now w) (checks w) (schedules w)
          (trace w).

(** The health check [k] calls from now is the first to answer ready. *)
Definition first_ready (fc : FirmamentSchedulerClient) (w : World) (k : nat)
  : Prop :=
  (forall j, (j < k)%nat -> (health fc (checks w + j)).1 = false)
  /\ (health fc (checks w + k)).1 = true.

(** The duration the loop hands to [time.Sleep]: the scheduling interval
    times one second, as int64 arithmetic gives it. *)
Definition sleep_duration (w : World) : Z :=
  wrap64 (schedulingInterval (flags w) * Second).

(** The world after a completed turn of the loop that appended [evs] while
    applying its batch of [size] deltas. *)
Definition after_turn (size : nat) (evs : list Event) (w : World) : World :=
  mkWorld (TaskIDToPod w) (ResIDToNode w) (flags w)
          (now w + Z.max 0 (sleep_duration w)) (checks w)
          (S (schedules w))
          (trace w ++ Infof size :: evs ++ [Slept (sleep_duration w)]).

(** An engine that hands out the given batches, then empty ones. *)
Definition engine (ready : nat -> bool) (bs : list (list SchedulingDelta))
  : FirmamentSchedulerClient :=
  mkClient (fun i => (ready i, None)) (fun i => nth i bs []).

Definition is_noop (delta : SchedulingDelta) : bool :=
  GetType delta =? SchedulingDelta_NOOP.

(** What [main] appends to the trace of the world it starts in. *)
Definition main_emitted (New : string -> FirmamentSchedulerClient + string)
    (n : nat) (w : World) : list Event :=
  drop (length (trace w)) (trace (world_of (run (main New n w)))).

(** Dialling that succeeds with the given client, and dialling that fails. *)
Definition dial_ok (fc : FirmamentSchedulerClient)
  : string -> FirmamentSchedulerClient + string := fun _ => inl fc.

Definition dial_refused : string -> FirmamentSchedulerClient + string :=
  fun _ => inr "connection refused"%string.

(** An engine ready from its third health check on, with one PLACE to hand
    out. *)
Definition late_engine : FirmamentSchedulerClient :=
  engine (fun i => (2 <=? i)%nat) [[mkDelta SchedulingDelta_PLACE 5 "r1"]].



(** An engine with three batches to hand out: a PLACE, nothing, then a NOOP
    and a MIGRATE. *)
Definition three_batches : FirmamentSchedulerClient :=
  engine (fun _ => true)
    [[mkDelta SchedulingDelta_PLACE 5 "r1"]; [];
     [mkDelta SchedulingDelta_NOOP 0 ""; mkDelta SchedulingDelta_MIGRATE 5 ""]].

(** Flags with a scheduling interval below zero, and with one so large
    that its duration in nanoseconds leaves int64. *)
Definition backwardFlags : Flags :=
  mkFlags "poseidon" "firmament-service.kube-system" "9090" "0.0.0.0:8989"
          "kubeconfig.cfg" "1.6" "0.0.0.0:9091" (-5) false.

Definition hugeFlags : Flags :=
  mkFlags "poseidon" "firmament-service.kube-system" "9090" "0.0.0.0:8989"
          "kubeconfig.cfg" "1.6" "0.0.0.0:9091" 9223372037 false.

(** ** The monad, step by step *)

Lemma bind_unfold {A B} (m : Proc A) (k : A -> Proc B) (w : World) :
  (m ≫= k) w = match m w with
               | Ret a w' => k a w'
               | Exited s w' => Exited s w'
               end.
Proof. reflexivity. Qed.

Lemma extend_extend evs1 evs2 w :
  extend evs2 (extend evs1 w) = extend (evs1 ++ evs2) w.
Proof. unfold extend. simpl. rewrite <- app_assoc. reflexivity. Qed.

Lemma extend_nil w : extend [] w = w.
Proof. destruct w. unfold extend. simpl. rewrite app_nil_r. reflexivity. Qed.

Lemma trace_extend evs w : trace (extend evs w) = trace w ++ evs.
Proof. reflexivity. Qed.

Lemma drop_trace_extend evs w :
  drop (length (trace w)) (trace (extend evs w)) = evs.
Proof. rewrite trace_extend. apply drop_app_length. Qed.

Lemma emitted_Exited {A} (m : Proc A) w s evs :
  m w = Exited s (extend evs w) -> emitted m w = evs.
Proof. intros H. unfold emitted. rewrite H. apply drop_trace_extend. Qed.

(** ** One delta, summarised *)

Ltac run_proc :=
  unfold mbind, Proc_bind, mret, Proc_ret, when, glog.Fatalf, glog.Infof,
    k8sclient.lookupTaskIDToPod, k8sclient.lookupResIDToNode,
    k8sclient.BindPodToNode, k8sclient.DeletePod, log; simpl.

Ltac same_world :=
  unfold finish, emit, extend; simpl;
  rewrite <- ?app_assoc, ?app_nil_r; simpl; try reflexivity.

Lemma dispatch_outcome delta w :
  dispatch delta w = finish (outcome (TaskIDToPod w) (ResIDToNode w) delta) w.
Proof.
  unfold dispatch, outcome.
  destruct (GetType delta =? SchedulingDelta_PLACE).
  - run_proc. destruct (TaskIDToPod w !! GetTaskId delta) as [pod|]; simpl.
    + destruct (ResIDToNode w !! GetResourceId delta) as [node|]; simpl; same_world.
    + same_world.
  - destruct ((GetType delta =? SchedulingDelta_PREEMPT)
              || (GetType delta =? SchedulingDelta_MIGRATE)).
    + run_proc. destruct (TaskIDToPod w !! GetTaskId delta) as [pod|]; simpl; same_world.
    + destruct (GetType delta =? SchedulingDelta_NOOP).
      * run_proc. unfold finish. simpl. rewrite extend_nil. reflexivity.
      * run_proc. same_world.
Qed.

Lemma dispatch_returned delta w :
  returned (dispatch delta w) = (outcome (TaskIDToPod w) (ResIDToNode w) delta).1.
Proof.
  rewrite dispatch_outcome. unfold finish.
  destruct (outcome (TaskIDToPod w) (ResIDToNode w) delta).1; reflexivity.
Qed.

Lemma dispatch_emitted delta w :
  emitted (dispatch delta) w = (outcome (TaskIDToPod w) (ResIDToNode w) delta).2.
Proof.
  unfold emitted. rewrite dispatch_outcome. unfold finish.
  destruct (outcome (TaskIDToPod w) (ResIDToNode w) delta).1; simpl;
    apply drop_app_length.
Qed.

(** The outcome of a delta, by the case the switch takes. *)

Lemma outcome_place_bound pods nodes delta pod node :
  GetType delta = SchedulingDelta_PLACE ->
  pods !! GetTaskId delta = Some pod ->
  nodes !! GetResourceId delta = Some node ->
  outcome pods nodes delta =
    (true, [RLock PodMux; RUnlock PodMux; RLock NodeMux; RUnlock NodeMux;
            BindPodToNode (Name pod) (Namespace pod) node]).
Proof. intros Hty Hp Hn. unfold outcome. rewrite Hty, Hp, Hn. reflexivity. Qed.

Lemma outcome_place_no_pod pods nodes delta :
  GetType delta = SchedulingDelta_PLACE ->
  pods !! GetTaskId delta = None ->
  outcome pods nodes delta =
    (false, [RLock PodMux; RUnlock PodMux;
             Fatalf (PlacedWithoutPod (GetTaskId delta))]).
Proof. intros Hty Hp. unfold outcome. rewrite Hty, Hp. reflexivity. Qed.

Lemma outcome_place_no_node pods nodes delta pod :
  GetType delta = SchedulingDelta_PLACE ->
  pods !! GetTaskId delta = Some pod ->
  nodes !! GetResourceId delta = None ->
  outcome pods nodes delta =
    (false, [RLock PodMux; RUnlock PodMux; RLock NodeMux; RUnlock NodeMux;
             Fatalf (PlacedWithoutNode (GetTaskId delta) (GetResourceId delta))]).
Proof. intros Hty Hp Hn. unfold outcome. rewrite Hty, Hp, Hn. reflexivity. Qed.

Lemma outcome_remove pods nodes delta pod :
  GetType delta = SchedulingDelta_PREEMPT \/ GetType delta = SchedulingDelta_MIGRATE ->
  pods !! GetTaskId delta = Some pod ->
  outcome pods nodes delta =
    (true, [RLock PodMux; RUnlock PodMux; DeletePod (Name pod) (Namespace pod)]).
Proof. intros [Hty|Hty] Hp; unfold outcome; rewrite Hty, Hp; reflexivity. Qed.

Lemma outcome_unknown pods nodes delta :
  GetType delta <> SchedulingDelta_PLACE ->
  GetType delta <> SchedulingDelta_PREEMPT ->
  GetType delta <> SchedulingDelta_MIGRATE ->
  GetType delta <> SchedulingDelta_NOOP ->
  outcome pods nodes delta = (false, [Fatalf (UnexpectedType (GetType delta))]).
Proof.
  intros H0 H1 H2 H3. unfold outcome.
  apply Z.eqb_neq in H0, H1, H2, H3. rewrite H0, H1, H2, H3. reflexivity.
Qed.

(** ** The dispatcher, delta by delta *)

(** C1, as the code has it: a PLACE delta whose task has no pod pairing, or
    whose resource has no node pairing, makes [dispatch] log a fatal message
    naming the missing pairing and exit the process with status 255; control
    does not come back to the caller, and neither [BindPodToNode] nor
    [DeletePod] is called. *)
Theorem C1_place_missing_pairing_is_fatal (w : World) (delta : SchedulingDelta) :
  GetType delta = SchedulingDelta_PLACE ->
  TaskIDToPod w !! GetTaskId delta = None
    \/ ResIDToNode w !! GetResourceId delta = None ->
  exists locks msg,
    dispatch delta w = Exited 255 (extend (locks ++ [Fatalf msg]) w)
    /\ msg = match TaskIDToPod w !! GetTaskId delta with
             | None => PlacedWithoutPod (GetTaskId delta)
             | Some _ => PlacedWithoutNode (GetTaskId delta) (GetResourceId delta)
             end
    /\ returned (dispatch delta w) = false
    /\ k8s_calls (emitted (dispatch delta) w) = [].
Proof.
  intros Hty Hmiss.
  rewrite dispatch_returned, dispatch_emitted, dispatch_outcome.
  destruct (TaskIDToPod w !! GetTaskId delta) as [pod|] eqn:Hp.
  - destruct Hmiss as [Hmiss|Hn]; [discriminate|].
    rewrite (outcome_place_no_node _ _ _ pod Hty Hp Hn).
    exists [RLock PodMux; RUnlock PodMux; RLock NodeMux; RUnlock NodeMux].
    eexists. repeat split.
  - rewrite (outcome_place_no_pod _ _ _ Hty Hp).
    exists [RLock PodMux; RUnlock PodMux]. eexists. repeat split.
Qed.

Lemma C1_place_missing_pairing_is_fatal_witness :
  exists locks msg,
    dispatch (mkDelta SchedulingDelta_PLACE 99 "r1") w5
      = Exited 255 (extend (locks ++ [Fatalf msg]) w5)
    /\ msg = match TaskIDToPod w5 !! 99%N with
             | None => PlacedWithoutPod 99
             | Some _ => PlacedWithoutNode 99 "r1"
             end
    /\ returned (dispatch (mkDelta SchedulingDelta_PLACE 99 "r1") w5) = false
    /\ k8s_calls (emitted (dispatch (mkDelta SchedulingDelta_PLACE 99 "r1")) w5) = [].
Proof.
  apply (C1_place_missing_pairing_is_fatal w5 (mkDelta SchedulingDelta_PLACE 99 "r1")).
  - reflexivity.
  - left. vm_compute. reflexivity.
Defined.

(** C1, as the claim words it, fails: with task 99 unregistered, the PLACE
    delta does not hand an error back to the caller; the process exits. *)
Lemma C1_place_unregistered_does_not_return :
  returned (dispatch (mkDelta SchedulingDelta_PLACE 99 "r1") w5) = false
  /\ dispatch (mkDelta SchedulingDelta_PLACE 99 "r1") w5
     = Exited 255 (extend [RLock PodMux; RUnlock PodMux;
                           Fatalf (PlacedWithoutPod 99)] w5).
Proof. split; vm_compute; reflexivity. Qed.

(** C2: with task 5 paired with (podA, nsA) and resource r1 with nodeX, the
    delta {PLACE, 5, r1} returns after calling
    [BindPodToNode podA nsA nodeX] exactly once and [DeletePod] not at all. *)
Theorem C2_place_binds_once (w : World) :
  TaskIDToPod w !! 5%N = Some podA ->
  ResIDToNode w !! "r1"%string = Some "nodeX"%string ->
  dispatch (mkDelta SchedulingDelta_PLACE 5 "r1") w
    = Ret tt (extend [RLock PodMux; RUnlock PodMux; RLock NodeMux;
                      RUnlock NodeMux; BindPodToNode "podA" "nsA" "nodeX"] w)
  /\ k8s_calls (emitted (dispatch (mkDelta SchedulingDelta_PLACE 5 "r1")) w)
     = [BindPodToNode "podA" "nsA" "nodeX"]
  /\ length (List.filter is_bind
               (emitted (dispatch (mkDelta SchedulingDelta_PLACE 5 "r1")) w)) = 1%nat
  /\ length (List.filter is_delete
               (emitted (dispatch (mkDelta SchedulingDelta_PLACE 5 "r1")) w)) = 0%nat.
Proof.
  intros Hp Hn.
  rewrite dispatch_emitted, dispatch_outcome.
  rewrite (outcome_place_bound _ _ (mkDelta SchedulingDelta_PLACE 5 "r1")
             podA "nodeX" eq_refl Hp Hn).
  repeat split.
Qed.

Lemma C2_place_binds_once_witness :
  dispatch (mkDelta SchedulingDelta_PLACE 5 "r1") w5
    = Ret tt (extend [RLock PodMux; RUnlock PodMux; RLock NodeMux;
                      RUnlock NodeMux; BindPodToNode "podA" "nsA" "nodeX"] w5)
  /\ k8s_calls (emitted (dispatch (mkDelta SchedulingDelta_PLACE 5 "r1")) w5)
     = [BindPodToNode "podA" "nsA" "nodeX"]
  /\ length (List.filter is_bind
               (emitted (dispatch (mkDelta SchedulingDelta_PLACE 5 "r1")) w5)) = 1%nat
  /\ length (List.filter is_delete
               (emitted (dispatch (mkDelta SchedulingDelta_PLACE 5 "r1")) w5)) = 0%nat.
Proof.
  apply (C2_place_binds_once w5); vm_compute; reflexivity.
Defined.

(** C5: with task 5 paired with (podA, nsA), a PREEMPT delta for task 5
    returns after calling [DeletePod podA nsA] exactly once and
    [BindPodToNode] not at all, whatever its resource; so does a MIGRATE
    delta. *)
Theorem C5_preempt_migrate_delete_once (w : World) (ty : Z) (res : string) :
  TaskIDToPod w !! 5%N = Some podA ->
  ty = SchedulingDelta_PREEMPT \/ ty = SchedulingDelta_MIGRATE ->
  dispatch (mkDelta ty 5 res) w
    = Ret tt (extend [RLock PodMux; RUnlock PodMux; DeletePod "podA" "nsA"] w)
  /\ k8s_calls (emitted (dispatch (mkDelta ty 5 res)) w) = [DeletePod "podA" "nsA"]
  /\ length (List.filter is_delete (emitted (dispatch (mkDelta ty 5 res)) w)) = 1%nat
  /\ length (List.filter is_bind (emitted (dispatch (mkDelta ty 5 res)) w)) = 0%nat.
Proof.
  intros Hp Hty.
  rewrite dispatch_emitted, dispatch_outcome.
  rewrite (outcome_remove _ _ (mkDelta ty 5 res) podA Hty Hp).
  repeat split.
Qed.

Lemma C5_preempt_migrate_delete_once_witness :
  (dispatch (mkDelta SchedulingDelta_PREEMPT 5 "r9") w5
     = Ret tt (extend [RLock PodMux; RUnlock PodMux; DeletePod "podA" "nsA"] w5)
   /\ k8s_calls (emitted (dispatch (mkDelta SchedulingDelta_PREEMPT 5 "r9")) w5)
      = [DeletePod "podA" "nsA"]
   /\ length (List.filter is_delete
                (emitted (dispatch (mkDelta SchedulingDelta_PREEMPT 5 "r9")) w5)) = 1%nat
   /\ length (List.filter is_bind
                (emitted (dispatch (mkDelta SchedulingDelta_PREEMPT 5 "r9")) w5)) = 0%nat)
  /\ (dispatch (mkDelta SchedulingDelta_MIGRATE 5 "") w5
        = Ret tt (extend [RLock PodMux; RUnlock PodMux; DeletePod "podA" "nsA"] w5)
      /\ k8s_calls (emitted (dispatch (mkDelta SchedulingDelta_MIGRATE 5 "")) w5)
         = [DeletePod "podA" "nsA"]
      /\ length (List.filter is_delete
                   (emitted (dispatch (mkDelta SchedulingDelta_MIGRATE 5 "")) w5)) = 1%nat
      /\ length (List.filter is_bind
                   (emitted (dispatch (mkDelta SchedulingDelta_MIGRATE 5 "")) w5)) = 0%nat).
Proof.
  split.
  - apply (C5_preempt_migrate_delete_once w5 SchedulingDelta_PREEMPT "r9").
    + vm_compute. reflexivity.
    + left. reflexivity.
  - apply (C5_preempt_migrate_delete_once w5 SchedulingDelta_MIGRATE "").
    + vm_compute. reflexivity.
    + right. reflexivity.
Defined.

(** C10: a PREEMPT delta and a MIGRATE delta with the same task and resource
    are indistinguishable to [dispatch]: from every world both give the same
    result, with the same lock operations and lookup, the same fatal message
    when the pairing is missing and the same single [DeletePod] otherwise. *)
Theorem C10_preempt_same_as_migrate (task : N) (res : string) (w : World) :
  dispatch (mkDelta SchedulingDelta_PREEMPT task res) w
    = dispatch (mkDelta SchedulingDelta_MIGRATE task res) w
  /\ dispatch (mkDelta SchedulingDelta_PREEMPT task res) w
     = match TaskIDToPod w !! task with
       | Some pod => Ret tt (extend [RLock PodMux; RUnlock PodMux;
                                     DeletePod (Name pod) (Namespace pod)] w)
       | None => Exited 255 (extend [RLock PodMux; RUnlock PodMux;
                                     Fatalf (PreemptedWithoutPod task)] w)
       end.
Proof.
  rewrite !dispatch_outcome. unfold outcome. simpl.
  split; [reflexivity|].
  destruct (TaskIDToPod w !! task); reflexivity.
Qed.

(** ** The registry is only read *)

Lemma same_registry_refl w : same_registry w w.
Proof. split; reflexivity. Qed.

Lemma same_registry_trans w1 w2 w3 :
  same_registry w1 w2 -> same_registry w2 w3 -> same_registry w1 w3.
Proof. intros [H1 H2] [H3 H4]. split; congruence. Qed.

Lemma same_registry_extend evs w : same_registry w (extend evs w).
Proof. split; reflexivity. Qed.

Lemma reads_only_bind {A B} (m : Proc A) (k : A -> Proc B) :
  reads_only m -> (forall a, reads_only (k a)) -> reads_only (m ≫= k).
Proof.
  intros Hm Hk w. rewrite bind_unfold.
  specialize (Hm w). destruct (m w) as [a w'|s w']; simpl in *.
  - eapply same_registry_trans; [exact Hm | apply Hk].
  - exact Hm.
Qed.

Lemma reads_only_ret {A} (a : A) : reads_only (mret a : Proc A).
Proof. intros w. apply same_registry_refl. Qed.

Lemma reads_only_dispatch delta : reads_only (dispatch delta).
Proof.
  intros w. rewrite dispatch_outcome. unfold finish.
  destruct (outcome _ _ delta).1; apply same_registry_extend.
Qed.

Lemma reads_only_for_range deltas : reads_only (for_range deltas).
Proof.
  induction deltas as [|delta rest IH]; simpl.
  - apply reads_only_ret.
  - apply reads_only_bind; [apply reads_only_dispatch | intros _; exact IH].
Qed.

Lemma reads_only_schedule_iteration fc : reads_only (schedule_iteration fc).
Proof.
  unfold schedule_iteration.
  apply reads_only_bind; [intros w; split; reflexivity|]. intros deltas.
  apply reads_only_bind; [intros w; split; reflexivity|]. intros _.
  apply reads_only_bind; [apply reads_only_for_range|]. intros _.
  apply reads_only_bind; [intros w; split; reflexivity|]. intros interval.
  intros w. split; reflexivity.
Qed.

Lemma reads_only_schedule fc n : reads_only (schedule fc n).
Proof.
  induction n as [|n IH]; simpl.
  - apply reads_only_ret.
  - apply reads_only_bind; [apply reads_only_schedule_iteration | intros _; exact IH].
Qed.

(** C9: whatever the delta and the registry, [dispatch] leaves both maps,
    [TaskIDToPod] and [ResIDToNode], exactly as they were, whether it returns
    or exits; the same holds for a whole batch and for any number of turns of
    the scheduling loop. *)
Theorem C9_registry_unchanged :
  (forall (delta : SchedulingDelta) (w : World),
      TaskIDToPod (world_of (dispatch delta w)) = TaskIDToPod w
      /\ ResIDToNode (world_of (dispatch delta w)) = ResIDToNode w)
  /\ (forall (deltas : list SchedulingDelta) (w : World),
         TaskIDToPod (world_of (for_range deltas w)) = TaskIDToPod w
         /\ ResIDToNode (world_of (for_range deltas w)) = ResIDToNode w)
  /\ (forall (fc : FirmamentSchedulerClient) (n : nat) (w : World),
         TaskIDToPod (world_of (schedule fc n w)) = TaskIDToPod w
         /\ ResIDToNode (world_of (schedule fc n w)) = ResIDToNode w).
Proof.
  split; [|split].
  - intros delta w. apply reads_only_dispatch.
  - intros deltas w. apply reads_only_for_range.
  - intros fc n w. apply reads_only_schedule.
Qed.

(** ** A batch of deltas *)

Lemma finish_extend o evs w :
  finish o (extend evs w) = finish (o.1, evs ++ o.2) w.
Proof.
  unfold finish. simpl. rewrite extend_extend. reflexivity.
Qed.

Lemma for_range_outcome deltas w :
  for_range deltas w
    = finish (batch_outcome (TaskIDToPod w) (ResIDToNode w) deltas) w.
Proof.
  revert w. induction deltas as [|delta rest IH]; intros w; simpl.
  - unfold finish. simpl. rewrite extend_nil. reflexivity.
  - rewrite bind_unfold, dispatch_outcome. unfold finish at 1.
    destruct (outcome (TaskIDToPod w) (ResIDToNode w) delta) as [b evs] eqn:Ho.
    simpl. destruct b.
    + rewrite IH. simpl. apply finish_extend.
    + reflexivity.
Qed.

Lemma for_range_app deltas1 deltas2 w :
  for_range (deltas1 ++ deltas2) w = (for_range deltas1 ;; for_range deltas2) w.
Proof.
  revert w. induction deltas1 as [|delta rest IH]; intros w; simpl.
  - reflexivity.
  - rewrite !bind_unfold. destruct (dispatch delta w) as [[] w'|s w'].
    + rewrite IH. reflexivity.
    + reflexivity.
Qed.

Lemma for_range_emitted deltas w :
  emitted (for_range deltas) w
    = (batch_outcome (TaskIDToPod w) (ResIDToNode w) deltas).2.
Proof.
  unfold emitted. rewrite for_range_outcome. unfold finish.
  destruct (batch_outcome (TaskIDToPod w) (ResIDToNode w) deltas).1;
    apply drop_app_length.
Qed.

Lemma batch_outcome_events pods nodes deltas :
  (batch_outcome pods nodes deltas).2
    = concat (map (fun delta => (outcome pods nodes delta).2)
                  (applied pods nodes deltas)).
Proof.
  induction deltas as [|delta rest IH]; simpl.
  - reflexivity.
  - destruct (outcome pods nodes delta) as [b evs] eqn:Ho. simpl.
    destruct b; simpl; rewrite Ho; simpl.
    + rewrite IH. reflexivity.
    + rewrite app_nil_r. reflexivity.
Qed.

Lemma applied_prefix pods nodes deltas :
  exists rest, deltas = applied pods nodes deltas ++ rest.
Proof.
  induction deltas as [|delta tl [rest IH]]; simpl.
  - exists []. reflexivity.
  - destruct (outcome pods nodes delta).1.
    + exists rest. simpl. rewrite <- IH. reflexivity.
    + exists tl. reflexivity.
Qed.

Lemma batch_outcome_all_applied pods nodes deltas :
  (batch_outcome pods nodes deltas).1 = true -> applied pods nodes deltas = deltas.
Proof.
  induction deltas as [|delta rest IH]; simpl; [reflexivity|].
  destruct (outcome pods nodes delta).1; simpl; [|discriminate].
  intros H. rewrite (IH H). reflexivity.
Qed.

(** C3, as the code has it: a delta whose kind is none of PLACE, PREEMPT,
    MIGRATE, NOOP makes the loop over the batch log the fatal message
    "Unexpected SchedulingDelta type" and exit the process with status 255;
    nothing else is appended to the trace, so no delta after it in the batch
    is applied. *)
Theorem C3_unknown_kind_is_fatal (delta : SchedulingDelta)
    (rest : list SchedulingDelta) (w : World) :
  GetType delta <> SchedulingDelta_PLACE ->
  GetType delta <> SchedulingDelta_PREEMPT ->
  GetType delta <> SchedulingDelta_MIGRATE ->
  GetType delta <> SchedulingDelta_NOOP ->
  for_range (delta :: rest) w
    = Exited 255 (extend [Fatalf (UnexpectedType (GetType delta))] w)
  /\ returned (for_range (delta :: rest) w) = false
  /\ emitted (for_range (delta :: rest)) w
     = [Fatalf (UnexpectedType (GetType delta))].
Proof.
  intros H0 H1 H2 H3.
  assert (E : for_range (delta :: rest) w
              = Exited 255 (extend [Fatalf (UnexpectedType (GetType delta))] w)).
  { simpl. rewrite bind_unfold, dispatch_outcome.
    rewrite (outcome_unknown _ _ _ H0 H1 H2 H3). reflexivity. }
  split; [exact E|]. split.
  - rewrite E. reflexivity.
  - apply (emitted_Exited _ _ _ _ E).
Qed.

Lemma C3_unknown_kind_is_fatal_witness :
  for_range [mkDelta 7 5 "r1"; mkDelta SchedulingDelta_PLACE 5 "r1"] w5
    = Exited 255 (extend [Fatalf (UnexpectedType 7)] w5)
  /\ returned (for_range [mkDelta 7 5 "r1"; mkDelta SchedulingDelta_PLACE 5 "r1"] w5)
     = false
  /\ emitted (for_range [mkDelta 7 5 "r1"; mkDelta SchedulingDelta_PLACE 5 "r1"]) w5
     = [Fatalf (UnexpectedType 7)].
Proof.
  apply (C3_unknown_kind_is_fatal (mkDelta 7 5 "r1")
           [mkDelta SchedulingDelta_PLACE 5 "r1"] w5); simpl; discriminate.
Defined.

(** C3, as the claim words it, fails: in a batch whose first delta has the
    unknown kind 7 and whose second is a PLACE that would bind podA to nodeX,
    the process exits at the first and the second is never applied. *)
Lemma C3_unknown_kind_stops_the_batch :
  returned (for_range [mkDelta 7 5 "r1"; mkDelta SchedulingDelta_PLACE 5 "r1"] w5)
    = false
  /\ k8s_calls
       (emitted (for_range [mkDelta 7 5 "r1"; mkDelta SchedulingDelta_PLACE 5 "r1"]) w5)
     = []
  /\ k8s_calls (emitted (dispatch (mkDelta SchedulingDelta_PLACE 5 "r1")) w5)
     = [BindPodToNode "podA" "nsA" "nodeX"].
Proof. repeat split; vm_compute; reflexivity. Qed.

(** C4: the loop over a batch dispatches its deltas one after the other in
    the order of the batch: a batch split in two runs the first part, then the
    second; what it appends to the trace is the concatenation, in batch
    order, of what each dispatched delta appends, the dispatched deltas being
    a prefix of the batch.  With task 1 and resource r1 registered, the batch
    [{PLACE,1,r1}; {MIGRATE,1,_}; {NOOP,_,_}] returns with the orchestrator
    calls [BindPodToNode; DeletePod], in that order and no other. *)
Theorem C4_batch_in_order (w : World) (pod : PodIdentifier) (node : string)
    (res2 res3 : string) (task3 : N) :
  TaskIDToPod w !! 1%N = Some pod ->
  ResIDToNode w !! "r1"%string = Some node ->
  (forall deltas1 deltas2 w0,
      for_range (deltas1 ++ deltas2) w0
        = (for_range deltas1 ;; for_range deltas2) w0)
  /\ (forall deltas w0,
         emitted (for_range deltas) w0
           = concat (map (fun delta => emitted (dispatch delta) w0)
                         (applied (TaskIDToPod w0) (ResIDToNode w0) deltas))
         /\ (exists rest,
                deltas = applied (TaskIDToPod w0) (ResIDToNode w0) deltas ++ rest)
         /\ (returned (for_range deltas w0) = true ->
             applied (TaskIDToPod w0) (ResIDToNode w0) deltas = deltas))
  /\ for_range [mkDelta SchedulingDelta_PLACE 1 "r1";
                mkDelta SchedulingDelta_MIGRATE 1 res2;
                mkDelta SchedulingDelta_NOOP task3 res3] w
     = Ret tt (extend [RLock PodMux; RUnlock PodMux; RLock NodeMux;
                       RUnlock NodeMux;
                       BindPodToNode (Name pod) (Namespace pod) node;
                       RLock PodMux; RUnlock PodMux;
                       DeletePod (Name pod) (Namespace pod)] w)
  /\ k8s_calls (emitted (for_range [mkDelta SchedulingDelta_PLACE 1 "r1";
                                    mkDelta SchedulingDelta_MIGRATE 1 res2;
                                    mkDelta SchedulingDelta_NOOP task3 res3]) w)
     = [BindPodToNode (Name pod) (Namespace pod) node;
        DeletePod (Name pod) (Namespace pod)].
Proof.
  intros Hp Hn.
  split; [intros; apply for_range_app|].
  split.
  { intros deltas w0. split; [|split].
    - rewrite for_range_emitted, batch_outcome_events.
      f_equal. apply map_ext. intros delta. symmetry. apply dispatch_emitted.
    - apply applied_prefix.
    - rewrite for_range_outcome. unfold finish.
      destruct (batch_outcome _ _ deltas).1 eqn:Hb; [|discriminate].
      intros _. apply batch_outcome_all_applied. exact Hb. }
  assert (E : batch_outcome (TaskIDToPod w) (ResIDToNode w)
                [mkDelta SchedulingDelta_PLACE 1 "r1";
                 mkDelta SchedulingDelta_MIGRATE 1 res2;
                 mkDelta SchedulingDelta_NOOP task3 res3]
              = (true, [RLock PodMux; RUnlock PodMux; RLock NodeMux;
                        RUnlock NodeMux;
                        BindPodToNode (Name pod) (Namespace pod) node;
                        RLock PodMux; RUnlock PodMux;
                        DeletePod (Name pod) (Namespace pod)])).
  { cbn [batch_outcome].
    rewrite (outcome_place_bound _ _ (mkDelta SchedulingDelta_PLACE 1 "r1")
               pod node eq_refl Hp Hn).
    rewrite (outcome_remove _ _ (mkDelta SchedulingDelta_MIGRATE 1 res2)
               pod (or_intror eq_refl) Hp).
    reflexivity. }
  rewrite for_range_emitted, for_range_outcome, E. split; reflexivity.
Qed.

Lemma C4_batch_in_order_witness :
  (forall deltas1 deltas2 w0,
      for_range (deltas1 ++ deltas2) w0
        = (for_range deltas1 ;; for_range deltas2) w0)
  /\ (forall deltas w0,
         emitted (for_range deltas) w0
           = concat (map (fun delta => emitted (dispatch delta) w0)
                         (applied (TaskIDToPod w0) (ResIDToNode w0) deltas))
         /\ (exists rest,
                deltas = applied (TaskIDToPod w0) (ResIDToNode w0) deltas ++ rest)
         /\ (returned (for_range deltas w0) = true ->
             applied (TaskIDToPod w0) (ResIDToNode w0) deltas = deltas))
  /\ for_range [mkDelta SchedulingDelta_PLACE 1 "r1";
                mkDelta SchedulingDelta_MIGRATE 1 "r2";
                mkDelta SchedulingDelta_NOOP 0 ""] w1
     = Ret tt (extend [RLock PodMux; RUnlock PodMux; RLock NodeMux;
                       RUnlock NodeMux;
                       BindPodToNode (Name podA) (Namespace podA) "nodeX";
                       RLock PodMux; RUnlock PodMux;
                       DeletePod (Name podA) (Namespace podA)] w1)
  /\ k8s_calls (emitted (for_range [mkDelta SchedulingDelta_PLACE 1 "r1";
                                    mkDelta SchedulingDelta_MIGRATE 1 "r2";
                                    mkDelta SchedulingDelta_NOOP 0 ""]) w1)
     = [BindPodToNode (Name podA) (Namespace podA) "nodeX";
        DeletePod (Name podA) (Namespace podA)].
Proof.
  apply (C4_batch_in_order w1 podA "nodeX" "r2" "" 0%N); vm_compute; reflexivity.
Defined.

(** ** The readiness gate, step by step *)

Ltac run_gate :=
  unfold mbind, Proc_bind, mret, Proc_ret, elapse, elapse_until, time_Now,
    firmament.Check, glog.Fatalf; simpl.

(** The closure never reports an error: it answers with the flag of the
    next health check and nothing else of it. *)
Lemma probe_run fc w :
  probe fc w = Ret ((health fc (checks w)).1, None) (count_check w).
Proof.
  unfold probe. run_gate. destruct (health fc (checks w)) as [[] e]; reflexivity.
Qed.



Lemma WaitFor_never_ready fc n interval deadline w :
  (forall i, (health fc i).1 = false) ->
  0 <= interval ->
  now w + Z.of_nat n * interval <= deadline ->
  wait.WaitFor n interval deadline (probe fc) w
    = Ret (Some ErrWaitTimeout) (polled deadline (S n) w).
Proof.
  intros Hnever Hi. revert w. induction n as [|n IH]; intros w Hle.
  - simpl. rewrite bind_unfold. simpl. rewrite bind_unfold, probe_run, Hnever.
    simpl. unfold polled, count_check, advance_to. simpl.
    do 2 f_equal; lia.
  - simpl. rewrite bind_unfold. simpl. rewrite bind_unfold, probe_run, Hnever.
    simpl. rewrite IH.
    + unfold polled, count_check, advance. simpl. do 2 f_equal; lia.
    + unfold count_check, advance. simpl. lia.
Qed.

(** Whenever the polling ends with an error, the error is the time-out and
    the deadline has been reached. *)
Lemma WaitFor_error_late fc n interval deadline w e w' :
  wait.WaitFor n interval deadline (probe fc) w = Ret (Some e) w' ->
  e = ErrWaitTimeout /\ deadline <= now w'.
Proof.
  revert w. induction n as [|n IH]; intros w; simpl;
    rewrite bind_unfold; simpl; rewrite bind_unfold, probe_run; simpl.
  - destruct (health fc _).1; intros H; inversion H; subst.
    split; [reflexivity|]. simpl. lia.
  - destruct (health fc _).1; intros H; [inversion H|]. eapply IH. exact H.
Qed.

Lemma WaitFor_returns fc n interval deadline w :
  exists r w', wait.WaitFor n interval deadline (probe fc) w = Ret r w'.
Proof.
  revert w. induction n as [|n IH]; intros w; simpl;
    rewrite bind_unfold; simpl; rewrite bind_unfold, probe_run; simpl.
  - destruct (health fc _).1; eauto.
  - destruct (health fc _).1; eauto.
Qed.

Lemma gate_ticks : wait.ticks (2 * Second) (10 * Minute) = 300%nat.
Proof. vm_compute. reflexivity. Qed.

Lemma gate_run fc w :
  WaitForFirmamentService fc w
    = if (health fc (checks w)).1 then Ret tt (count_check w)
      else match wait.WaitFor 300 (2 * Second) (now w + 10 * Minute) (probe fc)
                   (count_check w) with
           | Ret (Some e) w' => Exited 255 (emit (Fatalf (TimedOutWaiting e)) w')
           | Ret None w' => Ret tt w'
           | Exited s w' => Exited s w'
           end.
Proof.
  unfold WaitForFirmamentService, wait.PollImmediate.
  rewrite !bind_unfold, probe_run. cbn [fst snd].
  destruct (health fc (checks w)).1; [reflexivity|].
  rewrite bind_unfold. unfold time_Now. rewrite gate_ticks.
  change (now (count_check w)) with (now w).
  destruct (wait.WaitFor 300 (2 * Second) (now w + 10 * Minute) (probe fc)
              (count_check w)) as [[e|] w'|s w']; reflexivity.
Qed.

Lemma gate_exit_late fc w :
  returned (WaitForFirmamentService fc w) = false ->
  now w + 10 * Minute <= now (world_of (WaitForFirmamentService fc w)).
Proof.
  rewrite gate_run. destruct (health fc (checks w)).1; [discriminate|].
  destruct (wait.WaitFor 300 (2 * Second) (now w + 10 * Minute) (probe fc)
              (count_check w)) as [[e|] w'|s w'] eqn:Hw.
  - intros _. apply WaitFor_error_late in Hw. simpl. apply Hw.
  - discriminate.
  - destruct (WaitFor_returns fc 300 (2 * Second) (now w + 10 * Minute)
                (count_check w)) as (r & w'' & Hr). congruence.
Qed.

(** C6: when the first health check answers ready, the gate returns at once:
    one check has been made, the clock has not moved (no poll interval was
    waited for, before or after the check) and nothing was logged. *)
Theorem C6_ready_at_first_probe (fc : FirmamentSchedulerClient) (w : World) :
  (health fc (checks w)).1 = true ->
  WaitForFirmamentService fc w = Ret tt (count_check w)
  /\ now (world_of (WaitForFirmamentService fc w)) = now w
  /\ checks (world_of (WaitForFirmamentService fc w)) = S (checks w)
  /\ trace (world_of (WaitForFirmamentService fc w)) = trace w.
Proof.
  intros Hready. rewrite gate_run, Hready. repeat split.
Qed.

Lemma C6_ready_at_first_probe_witness :
  WaitForFirmamentService always_ready w5 = Ret tt (count_check w5)
  /\ now (world_of (WaitForFirmamentService always_ready w5)) = now w5
  /\ checks (world_of (WaitForFirmamentService always_ready w5)) = S (checks w5)
  /\ trace (world_of (WaitForFirmamentService always_ready w5)) = trace w5.
Proof.
  apply (C6_ready_at_first_probe always_ready w5). reflexivity.
Defined.

(** C7, as the code has it: the poll interval (2 s) and the time-out (10 min)
    are constants written in [WaitForFirmamentService]; whatever the flags
    hold, a gate whose health check never answers ready exits the process
    with the time-out message exactly when 10 minutes have gone by on the
    clock, after 302 checks; and whatever the health checks answer, the gate
    never exits before 10 minutes have gone by. *)
Theorem C7_timeout_after_ten_minutes (fc : FirmamentSchedulerClient) (w : World) :
  (forall i, (health fc i).1 = false) ->
  WaitForFirmamentService fc w
    = Exited 255 (emit (Fatalf (TimedOutWaiting ErrWaitTimeout))
                       (polled (now w + 10 * Minute) 302 w))
  /\ now (world_of (WaitForFirmamentService fc w)) = now w + 10 * Minute
  /\ flags (world_of (WaitForFirmamentService fc w)) = flags w
  /\ (forall fc0 w0,
         returned (WaitForFirmamentService fc0 w0) = false ->
         now w0 + 10 * Minute <= now (world_of (WaitForFirmamentService fc0 w0))).
Proof.
  intros Hnever.
  assert (E : WaitForFirmamentService fc w
              = Exited 255 (emit (Fatalf (TimedOutWaiting ErrWaitTimeout))
                                 (polled (now w + 10 * Minute) 302 w))).
  { rewrite gate_run, Hnever.
    rewrite (WaitFor_never_ready fc 300 (2 * Second) (now w + 10 * Minute)
               (count_check w) Hnever).
    - unfold polled, count_check, emit. simpl. do 3 f_equal. lia.
    - vm_compute. discriminate.
    - change (now (count_check w)) with (now w).
      change (Z.of_nat 300 * (2 * Second)) with (10 * Minute). lia. }
  split; [exact E|]. rewrite E. repeat split.
  intros fc0 w0. apply gate_exit_late.
Qed.

Lemma C7_timeout_after_ten_minutes_witness :
  WaitForFirmamentService never_ready w5
    = Exited 255 (emit (Fatalf (TimedOutWaiting ErrWaitTimeout))
                       (polled (now w5 + 10 * Minute) 302 w5))
  /\ now (world_of (WaitForFirmamentService never_ready w5)) = now w5 + 10 * Minute
  /\ flags (world_of (WaitForFirmamentService never_ready w5)) = flags w5
  /\ (forall fc0 w0,
         returned (WaitForFirmamentService fc0 w0) = false ->
         now w0 + 10 * Minute <= now (world_of (WaitForFirmamentService fc0 w0))).
Proof.
  apply (C7_timeout_after_ten_minutes never_ready w5). intros i. reflexivity.
Defined.

(** C7, as the claim words it, fails: no flag carries the readiness time-out
    or the poll interval; two processes started with flags that differ in
    every field, both facing an engine that is never ready, give up at the
    same instant, 10 minutes, after the same 302 checks. *)
Lemma C7_timeout_is_not_configured :
  (schedulerName defaultFlags <> schedulerName otherFlags
   /\ firmamentAddress defaultFlags <> firmamentAddress otherFlags
   /\ firmamentPort defaultFlags <> firmamentPort otherFlags
   /\ pprofAddress defaultFlags <> pprofAddress otherFlags
   /\ kubeConfig defaultFlags <> kubeConfig otherFlags
   /\ kubeVersion defaultFlags <> kubeVersion otherFlags
   /\ statsServerAddress defaultFlags <> statsServerAddress otherFlags
   /\ schedulingInterval defaultFlags <> schedulingInterval otherFlags
   /\ enablePprof defaultFlags <> enablePprof otherFlags)
  /\ now (world_of (WaitForFirmamentService never_ready (with_flags defaultFlags w5)))
     = 10 * Minute
  /\ now (world_of (WaitForFirmamentService never_ready (with_flags otherFlags w5)))
     = 10 * Minute
  /\ checks (world_of (WaitForFirmamentService never_ready (with_flags defaultFlags w5)))
     = 302%nat
  /\ checks (world_of (WaitForFirmamentService never_ready (with_flags otherFlags w5)))
     = 302%nat.
Proof.
  split; [repeat split; vm_compute; discriminate|].
  repeat split; vm_compute; reflexivity.
Qed.

(** ** Health checks that fail *)


(** ** The gate on concrete engines *)

(** Against [flaky] the gate returns after the fourth check, three poll
    intervals (6 s) after it started. *)
Example gate_flaky :
  WaitForFirmamentService flaky w5 = Ret tt (polled (6 * Second) 4 w5).
Proof. vm_compute. reflexivity. Qed.

(** The same run when the three failures are plain "not ready" answers. *)
Example gate_flaky_not_ready :
  WaitForFirmamentService (not_ready_on_error flaky) w5
    = Ret tt (polled (6 * Second) 4 w5).
Proof. vm_compute. reflexivity. Qed.

(** Two turns of the scheduling loop over a one-delta batch, with the
    default interval of 10 s. *)
Example schedule_two_turns :
  emitted (schedule (mkClient (fun _ => (true, None))
                              (fun _ => [mkDelta SchedulingDelta_PREEMPT 5 ""])) 2) w5
    = [Infof 1; RLock PodMux; RUnlock PodMux; DeletePod "podA" "nsA";
       Slept (10 * Second);
       Infof 1; RLock PodMux; RUnlock PodMux; DeletePod "podA" "nsA";
       Slept (10 * Second)].
Proof. vm_compute. reflexivity. Qed.

(** ** More on single deltas and batches *)

Lemma outcome_noop pods nodes delta :
  GetType delta = SchedulingDelta_NOOP -> outcome pods nodes delta = (true, []).
Proof. intros Hty. unfold outcome. rewrite Hty. reflexivity. Qed.

(** X1: a batch made of NOOP deltas only, however long and whatever tasks
    and resources they name, returns and leaves the world exactly as it
    was: no lock is taken, no map is read, nothing is logged or called. *)
Theorem noop_batch_changes_nothing (deltas : list SchedulingDelta) (w : World) :
  Forall (fun delta => GetType delta = SchedulingDelta_NOOP) deltas ->
  for_range deltas w = Ret tt w.
Proof.
  intros Hall. induction Hall as [|delta rest Hty _ IH]; simpl.
  - reflexivity.
  - rewrite bind_unfold, dispatch_outcome, (outcome_noop _ _ _ Hty).
    unfold finish. simpl. rewrite extend_nil. exact IH.
Qed.

Lemma noop_batch_changes_nothing_witness :
  for_range [mkDelta SchedulingDelta_NOOP 99 "nowhere";
             mkDelta SchedulingDelta_NOOP 5 "r1"] w5 = Ret tt w5.
Proof.
  apply (noop_batch_changes_nothing
           [mkDelta SchedulingDelta_NOOP 99 "nowhere";
            mkDelta SchedulingDelta_NOOP 5 "r1"] w5).
  repeat constructor.
Defined.

Lemma outcome_calls_le pods nodes delta :
  (length (k8s_calls (outcome pods nodes delta).2)
   <= if (outcome pods nodes delta).1 then 1 else 0)%nat.
Proof.
  unfold outcome.
  destruct (GetType delta =? SchedulingDelta_PLACE).
  - destruct (pods !! GetTaskId delta); [|simpl; lia].
    destruct (nodes !! GetResourceId delta); simpl; lia.
  - destruct ((GetType delta =? SchedulingDelta_PREEMPT)
              || (GetType delta =? SchedulingDelta_MIGRATE)).
    + destruct (pods !! GetTaskId delta); simpl; lia.
    + destruct (GetType delta =? SchedulingDelta_NOOP); simpl; lia.
Qed.

Lemma k8s_calls_append evs1 evs2 :
  k8s_calls (evs1 ++ evs2) = k8s_calls evs1 ++ k8s_calls evs2.
Proof. apply List.filter_app. Qed.

Lemma batch_outcome_calls_le pods nodes deltas :
  (length (k8s_calls (batch_outcome pods nodes deltas).2)
   + (if (batch_outcome pods nodes deltas).1 then 0 else 1)
   <= length deltas)%nat.
Proof.
  induction deltas as [|delta rest IH]; simpl; [lia|].
  pose proof (outcome_calls_le pods nodes delta) as Hd.
  destruct (outcome pods nodes delta) as [b evs]. simpl in *. destruct b; simpl.
  - rewrite k8s_calls_append, length_app. lia.
  - lia.
Qed.

Lemma for_range_returned deltas w :
  returned (for_range deltas w)
    = (batch_outcome (TaskIDToPod w) (ResIDToNode w) deltas).1.
Proof.
  rewrite for_range_outcome. unfold finish.
  destruct (batch_outcome (TaskIDToPod w) (ResIDToNode w) deltas).1; reflexivity.
Qed.

(** X2: a delta makes at most one orchestrator call, and none at all when it
    ends the process; so a batch makes at most as many calls as it has
    deltas, and strictly fewer when it does not run to its end. *)
Theorem at_most_one_call_per_delta :
  (forall (delta : SchedulingDelta) (w : World),
      (length (k8s_calls (emitted (dispatch delta) w))
       <= if returned (dispatch delta w) then 1 else 0)%nat)
  /\ (forall (deltas : list SchedulingDelta) (w : World),
         (length (k8s_calls (emitted (for_range deltas) w))
          + (if returned (for_range deltas w) then 0 else 1)
          <= length deltas)%nat).
Proof.
  split.
  - intros delta w. rewrite dispatch_emitted, dispatch_returned.
    apply outcome_calls_le.
  - intros deltas w. rewrite for_range_emitted, for_range_returned.
    apply batch_outcome_calls_le.
Qed.

Lemma call_from_registry_mono w deltas1 deltas2 e :
  (forall delta, In delta deltas1 -> In delta deltas2) ->
  call_from_registry w deltas1 e -> call_from_registry w deltas2 e.
Proof.
  intros Hsub. destruct e; simpl; try tauto.
  - intros (delta & Hin & H). exists delta. split; [apply Hsub; exact Hin | exact H].
  - intros (delta & Hin & H). exists delta. split; [apply Hsub; exact Hin | exact H].
Qed.

Lemma outcome_from_registry w delta :
  Forall (call_from_registry w [delta])
         (outcome (TaskIDToPod w) (ResIDToNode w) delta).2.
Proof.
  unfold outcome.
  destruct (GetType delta =? SchedulingDelta_PLACE) eqn:Hplace.
  - apply Z.eqb_eq in Hplace.
    destruct (TaskIDToPod w !! GetTaskId delta) as [[name ns]|] eqn:Hp;
      [|repeat constructor].
    destruct (ResIDToNode w !! GetResourceId delta) as [node|] eqn:Hn;
      repeat constructor.
    simpl. exists delta. repeat split; auto.
  - destruct ((GetType delta =? SchedulingDelta_PREEMPT)
              || (GetType delta =? SchedulingDelta_MIGRATE)) eqn:Hrem.
    + apply orb_true_iff in Hrem. rewrite !Z.eqb_eq in Hrem.
      destruct (TaskIDToPod w !! GetTaskId delta) as [[name ns]|] eqn:Hp;
        repeat constructor.
      simpl. exists delta. repeat split; auto.
    + destruct (GetType delta =? SchedulingDelta_NOOP); repeat constructor.
Qed.

Lemma batch_outcome_from_registry w deltas :
  Forall (call_from_registry w deltas)
         (batch_outcome (TaskIDToPod w) (ResIDToNode w) deltas).2.
Proof.
  induction deltas as [|delta rest IH]; simpl; [constructor|].
  pose proof (outcome_from_registry w delta) as Hd.
  assert (Hd' : Forall (call_from_registry w (delta :: rest))
                       (outcome (TaskIDToPod w) (ResIDToNode w) delta).2).
  { eapply Forall_impl; [exact Hd|]. intros e. apply call_from_registry_mono.
    intros d [->|[]]. left. reflexivity. }
  destruct (outcome (TaskIDToPod w) (ResIDToNode w) delta).1; simpl.
  - apply Forall_app. split; [exact Hd'|].
    eapply Forall_impl; [exact IH|]. intros e. apply call_from_registry_mono.
    intros d Hin. right. exact Hin.
  - exact Hd'.
Qed.

(** X3: the loop never invents an identity.  Every [BindPodToNode name ns
    node] a batch makes comes from a PLACE delta of that batch whose task the
    registry maps to (name, ns) and whose resource it maps to node; every
    [DeletePod name ns] comes from a PREEMPT or MIGRATE delta of the batch
    whose task the registry maps to (name, ns).  In particular the zero
    value of a failed lookup never reaches the orchestrator. *)
Theorem calls_come_from_registry (deltas : list SchedulingDelta) (w : World) :
  Forall (call_from_registry w deltas) (emitted (for_range deltas) w).
Proof.
  rewrite for_range_emitted. apply batch_outcome_from_registry.
Qed.

Lemma lock_scan_app s evs1 evs2 :
  lock_scan s (evs1 ++ evs2) = lock_scan (lock_scan s evs1) evs2.
Proof. unfold lock_scan. apply fold_left_app. Qed.

Lemma outcome_locks pods nodes delta :
  lock_scan Free (outcome pods nodes delta).2 = Free.
Proof.
  unfold outcome.
  destruct (GetType delta =? SchedulingDelta_PLACE).
  - destruct (pods !! GetTaskId delta); [|reflexivity].
    destruct (nodes !! GetResourceId delta); reflexivity.
  - destruct ((GetType delta =? SchedulingDelta_PREEMPT)
              || (GetType delta =? SchedulingDelta_MIGRATE)).
    + destruct (pods !! GetTaskId delta); reflexivity.
    + destruct (GetType delta =? SchedulingDelta_NOOP); reflexivity.
Qed.

Lemma batch_outcome_locks pods nodes deltas :
  lock_scan Free (batch_outcome pods nodes deltas).2 = Free.
Proof.
  induction deltas as [|delta rest IH]; simpl; [reflexivity|].
  pose proof (outcome_locks pods nodes delta) as Hd.
  destruct (outcome pods nodes delta) as [b evs]. simpl in *. destruct b; simpl.
  - rewrite lock_scan_app, Hd. exact IH.
  - exact Hd.
Qed.

(** ** One turn of the loop, summarised *)

Lemma schedule_iteration_run fc w :
  schedule_iteration fc w
    = if (batch_outcome (TaskIDToPod w) (ResIDToNode w)
            (batches fc (schedules w))).1
      then Ret tt (after_turn (length (batches fc (schedules w)))
                     (batch_outcome (TaskIDToPod w) (ResIDToNode w)
                        (batches fc (schedules w))).2 w)
      else Exited 255
             (extend (Infof (length (batches fc (schedules w)))
                        :: (batch_outcome (TaskIDToPod w) (ResIDToNode w)
                              (batches fc (schedules w))).2)
                     (count_schedule w)).
Proof.
  unfold schedule_iteration. rewrite bind_unfold. unfold firmament.Schedule.
  rewrite bind_unfold. unfold glog.Infof, log. rewrite bind_unfold.
  rewrite for_range_outcome. simpl.
  destruct (batch_outcome (TaskIDToPod w) (ResIDToNode w)
              (batches fc (schedules w))) as [b evs].
  unfold finish. simpl. destruct b.
  - rewrite bind_unfold. unfold config.GetSchedulingInterval, time_Sleep.
    unfold after_turn, emit, advance, extend. simpl.
    rewrite <- !app_assoc. reflexivity.
  - unfold extend, emit, count_schedule. simpl.
    rewrite <- !app_assoc. reflexivity.
Qed.

Lemma schedule_S fc n w :
  schedule fc (S n) w
    = match schedule_iteration fc w with
      | Ret _ w' => schedule fc n w'
      | Exited s w' => Exited s w'
      end.
Proof. simpl. rewrite bind_unfold. reflexivity. Qed.

Lemma schedule_appends fc n w :
  exists evs, trace (world_of (schedule fc n w)) = trace w ++ evs.
Proof.
  revert w. induction n as [|n IH]; intros w.
  - exists []. simpl. rewrite app_nil_r. reflexivity.
  - rewrite schedule_S, schedule_iteration_run.
    destruct (batch_outcome (TaskIDToPod w) (ResIDToNode w)
                (batches fc (schedules w))) as [b evs]. simpl. destruct b.
    + destruct (IH (after_turn (length (batches fc (schedules w))) evs w))
        as [evs' H].
      rewrite H. simpl. rewrite <- app_assoc. eauto.
    + simpl. eauto.
Qed.

(** The events of [S n] turns: those of the first turn, then, if its batch
    ran to its end, the sleep and the events of the other [n]. *)
Lemma emitted_schedule_S fc n w :
  emitted (schedule fc (S n)) w
    = Infof (length (batches fc (schedules w)))
      :: (batch_outcome (TaskIDToPod w) (ResIDToNode w)
            (batches fc (schedules w))).2
      ++ (if (batch_outcome (TaskIDToPod w) (ResIDToNode w)
                (batches fc (schedules w))).1
          then Slept (sleep_duration w)
               :: emitted (schedule fc n)
                    (after_turn (length (batches fc (schedules w)))
                       (batch_outcome (TaskIDToPod w) (ResIDToNode w)
                          (batches fc (schedules w))).2 w)
          else []).
Proof.
  unfold emitted at 1. rewrite schedule_S, schedule_iteration_run.
  destruct (batch_outcome (TaskIDToPod w) (ResIDToNode w)
              (batches fc (schedules w))) as [b evs]. simpl. destruct b.
  - unfold emitted.
    set (w1 := after_turn (length (batches fc (schedules w))) evs w).
    destruct (schedule_appends fc n w1) as [evs' H].
    rewrite H, (drop_app_length (trace w1) evs').
    unfold w1, after_turn. cbn [trace].
    rewrite <- app_assoc, (drop_app_length (trace w)).
    simpl. rewrite <- app_assoc. reflexivity.
  - cbn [world_of extend trace count_schedule].
    rewrite (drop_app_length (trace w)), app_nil_r. reflexivity.
Qed.

(** X4: the lock discipline of the loop.  Over any number of turns, any
    batches and any registry, whether the loop is still running or has
    exited: a read lock is taken only when none is held, the next thing the
    loop does is release that very lock, and every log line, orchestrator
    call, sleep and exit happens with no lock held. *)
Theorem loop_holds_no_lock_across_calls (fc : FirmamentSchedulerClient)
    (n : nat) (w : World) :
  lock_scan Free (emitted (schedule fc n) w) = Free.
Proof.
  revert w. induction n as [|n IH]; intros w.
  - unfold emitted. simpl. rewrite drop_all. reflexivity.
  - rewrite emitted_schedule_S.
    pose proof (batch_outcome_locks (TaskIDToPod w) (ResIDToNode w)
                  (batches fc (schedules w))) as Hb.
    destruct (batch_outcome (TaskIDToPod w) (ResIDToNode w)
                (batches fc (schedules w))) as [b evs]. simpl in *.
    change (lock_scan Free (Infof (length (batches fc (schedules w))) :: ?l))
      with (lock_scan Free l).
    rewrite lock_scan_app, Hb. destruct b; [|reflexivity].
    change (lock_scan Free (Slept ?d :: ?l)) with (lock_scan Free l).
    apply IH.
Qed.

(** X5: preemption and migration never look at the node side of the
    registry.  For a PREEMPT or MIGRATE delta the events appended and the
    fate of the process are the same whatever resource the delta names and
    whatever the node map holds, and [NodeMux] is never taken. *)
Theorem removal_ignores_nodes (ty : Z) (task : N) (res res' : string)
    (nodes' : gmap string string) (w : World) :
  ty = SchedulingDelta_PREEMPT \/ ty = SchedulingDelta_MIGRATE ->
  emitted (dispatch (mkDelta ty task res)) w
    = emitted (dispatch (mkDelta ty task res')) (with_nodes nodes' w)
  /\ returned (dispatch (mkDelta ty task res) w)
     = returned (dispatch (mkDelta ty task res') (with_nodes nodes' w))
  /\ ~ In (RLock NodeMux) (emitted (dispatch (mkDelta ty task res)) w).
Proof.
  intros Hty. rewrite !dispatch_emitted, !dispatch_returned.
  unfold outcome. simpl.
  destruct Hty as [-> | ->]; simpl;
    destruct (TaskIDToPod w !! task); simpl; repeat split; try reflexivity;
    intros H; repeat (destruct H as [H|H]; [discriminate|]); exact H.
Qed.

Lemma removal_ignores_nodes_witness :
  emitted (dispatch (mkDelta SchedulingDelta_PREEMPT 5 "r1")) w5
    = emitted (dispatch (mkDelta SchedulingDelta_PREEMPT 5 "gone")) (with_nodes ∅ w5)
  /\ returned (dispatch (mkDelta SchedulingDelta_PREEMPT 5 "r1") w5)
     = returned (dispatch (mkDelta SchedulingDelta_PREEMPT 5 "gone") (with_nodes ∅ w5))
  /\ ~ In (RLock NodeMux) (emitted (dispatch (mkDelta SchedulingDelta_PREEMPT 5 "r1")) w5).
Proof.
  apply (removal_ignores_nodes SchedulingDelta_PREEMPT 5 "r1" "gone" ∅ w5).
  left. reflexivity.
Defined.

(** X6: what a batch does depends on the two registry maps and on nothing
    else of the process: from two worlds with the same maps, whatever their
    flags, clock, RPC counts and earlier trace, the same batch appends the
    same events and meets the same fate. *)
Theorem batch_depends_on_registry_only (deltas : list SchedulingDelta)
    (w w' : World) :
  TaskIDToPod w' = TaskIDToPod w ->
  ResIDToNode w' = ResIDToNode w ->
  emitted (for_range deltas) w' = emitted (for_range deltas) w
  /\ returned (for_range deltas w') = returned (for_range deltas w).
Proof.
  intros Hp Hn. rewrite !for_range_emitted, !for_range_returned, Hp, Hn.
  split; reflexivity.
Qed.

Lemma batch_depends_on_registry_only_witness :
  emitted (for_range [mkDelta SchedulingDelta_PLACE 5 "r1";
                      mkDelta SchedulingDelta_MIGRATE 9 ""])
          (emit (Slept 7) (advance 7 (with_flags otherFlags w5)))
    = emitted (for_range [mkDelta SchedulingDelta_PLACE 5 "r1";
                          mkDelta SchedulingDelta_MIGRATE 9 ""]) w5
  /\ returned (for_range [mkDelta SchedulingDelta_PLACE 5 "r1";
                          mkDelta SchedulingDelta_MIGRATE 9 ""]
                 (emit (Slept 7) (advance 7 (with_flags otherFlags w5))))
     = returned (for_range [mkDelta SchedulingDelta_PLACE 5 "r1";
                            mkDelta SchedulingDelta_MIGRATE 9 ""] w5).
Proof.
  apply (batch_depends_on_registry_only
           [mkDelta SchedulingDelta_PLACE 5 "r1";
            mkDelta SchedulingDelta_MIGRATE 9 ""]
           w5 (emit (Slept 7) (advance 7 (with_flags otherFlags w5))));
    reflexivity.
Defined.

(** ** Many turns of the loop *)

Lemma outcome_no_sleep pods nodes delta :
  List.filter is_slept (outcome pods nodes delta).2 = [].
Proof.
  unfold outcome.
  destruct (GetType delta =? SchedulingDelta_PLACE).
  - destruct (pods !! GetTaskId delta); [|reflexivity].
    destruct (nodes !! GetResourceId delta); reflexivity.
  - destruct ((GetType delta =? SchedulingDelta_PREEMPT)
              || (GetType delta =? SchedulingDelta_MIGRATE)).
    + destruct (pods !! GetTaskId delta); reflexivity.
    + destruct (GetType delta =? SchedulingDelta_NOOP); reflexivity.
Qed.

Lemma batch_outcome_no_sleep pods nodes deltas :
  List.filter is_slept (batch_outcome pods nodes deltas).2 = [].
Proof.
  induction deltas as [|delta rest IH]; simpl; [reflexivity|].
  pose proof (outcome_no_sleep pods nodes delta) as Hd.
  destruct (outcome pods nodes delta) as [b evs]. simpl in *. destruct b; simpl.
  - rewrite List.filter_app, Hd, IH. reflexivity.
  - exact Hd.
Qed.

Lemma schedule_complete_run fc n w :
  returned (schedule fc n w) = true ->
  world_of (schedule fc n w)
    = mkWorld (TaskIDToPod w) (ResIDToNode w) (flags w)
              (now w + Z.of_nat n * Z.max 0 (sleep_duration w))
              (checks w) (schedules w + n)
              (trace w ++ emitted (schedule fc n) w)
  /\ k8s_calls (emitted (schedule fc n) w)
     = concat (map (fun i => k8s_calls
                               (batch_outcome (TaskIDToPod w) (ResIDToNode w)
                                  (batches fc i)).2)
                   (seq (schedules w) n))
  /\ List.filter is_slept (emitted (schedule fc n) w)
     = replicate n (Slept (sleep_duration w)).
Proof.
  revert w. induction n as [|n IH]; intros w Hret.
  - unfold emitted. simpl. rewrite drop_all, app_nil_r, Nat.add_0_r, Z.add_0_r.
    destruct w; repeat split.
  - rewrite emitted_schedule_S.
    rewrite schedule_S, schedule_iteration_run in Hret |- *.
    destruct (batch_outcome (TaskIDToPod w) (ResIDToNode w)
                (batches fc (schedules w))) as [b evs] eqn:Hb.
    simpl in Hret |- *. destruct b; [|discriminate].
    set (w1 := after_turn (length (batches fc (schedules w))) evs w) in *.
    destruct (IH w1 Hret) as (Hw & Hcalls & Hsleeps).
    split; [|split].
    + rewrite Hw. unfold w1, after_turn, sleep_duration.
      cbn [TaskIDToPod ResIDToNode flags now checks schedules trace].
      f_equal; [lia | lia |].
      rewrite <- app_assoc. simpl. rewrite <- app_assoc. reflexivity.
    + change (k8s_calls (Infof ?k :: ?l)) with (k8s_calls l).
      rewrite k8s_calls_append.
      change (k8s_calls (Slept ?d :: ?l)) with (k8s_calls l).
      rewrite Hcalls, Hb. reflexivity.
    + change (List.filter is_slept (Infof ?k :: ?l)) with (List.filter is_slept l).
      rewrite List.filter_app.
      change (List.filter is_slept (Slept ?d :: ?l))
        with (Slept d :: List.filter is_slept l).
      rewrite Hsleeps.
      pose proof (batch_outcome_no_sleep (TaskIDToPod w) (ResIDToNode w)
                    (batches fc (schedules w))) as Hnone.
      rewrite Hb in Hnone. simpl in Hnone. rewrite Hnone. reflexivity.
Qed.

Lemma wrap64_in_range z : - 2 ^ 63 <= z < 2 ^ 63 -> wrap64 z = z.
Proof. intros Hz. unfold wrap64. rewrite Z.mod_small; lia. Qed.

Lemma sleep_duration_in_range w :
  0 <= schedulingInterval (flags w) <= 9223372036 ->
  sleep_duration w = schedulingInterval (flags w) * Second.
Proof.
  intros Hiv. unfold sleep_duration. apply wrap64_in_range.
  unfold Second. lia.
Qed.

(** X7: turns that complete.  When [n] turns of the loop run without the
    process exiting, exactly [n] Schedule RPCs have been made and the loop
    has called [time.Sleep] exactly [n] times, each time with the duration
    the code computes: the scheduling interval times one second in int64
    arithmetic, which is the interval in seconds as long as it lies between
    0 and 9223372036 and wraps around beyond.  The clock has advanced by
    [n] times that duration when it is positive and not at all when it is
    zero or negative.  The registry and the flags are as they were, and the
    orchestrator calls made are those of the batches the engine handed out,
    batch after batch in the order of the RPCs: turns never overlap and no
    batch is skipped or replayed. *)
Theorem completed_turns (fc : FirmamentSchedulerClient) (n : nat) (w : World) :
  returned (schedule fc n w) = true ->
  schedules (world_of (schedule fc n w)) = (schedules w + n)%nat
  /\ List.filter is_slept (emitted (schedule fc n) w)
     = replicate n (Slept (wrap64 (schedulingInterval (flags w) * Second)))
  /\ now (world_of (schedule fc n w))
     = now w + Z.of_nat n
               * Z.max 0 (wrap64 (schedulingInterval (flags w) * Second))
  /\ (0 <= schedulingInterval (flags w) <= 9223372036 ->
      wrap64 (schedulingInterval (flags w) * Second)
        = schedulingInterval (flags w) * Second)
  /\ flags (world_of (schedule fc n w)) = flags w
  /\ k8s_calls (emitted (schedule fc n) w)
     = concat (map (fun i => k8s_calls (emitted (for_range (batches fc i)) w))
                   (seq (schedules w) n)).
Proof.
  intros Hret. destruct (schedule_complete_run fc n w Hret) as (Hw & Hc & Hs).
  rewrite Hw. cbn [schedules now flags].
  split; [reflexivity|]. split; [exact Hs|]. split; [reflexivity|].
  split; [apply sleep_duration_in_range|]. split; [reflexivity|].
  rewrite Hc. f_equal. apply map_ext. intros i.
  rewrite for_range_emitted. reflexivity.
Qed.

Lemma completed_turns_witness :
  schedules (world_of (schedule three_batches 3 w5)) = (schedules w5 + 3)%nat
  /\ List.filter is_slept (emitted (schedule three_batches 3) w5)
     = replicate 3 (Slept (wrap64 (schedulingInterval (flags w5) * Second)))
  /\ now (world_of (schedule three_batches 3 w5))
     = now w5 + Z.of_nat 3
                * Z.max 0 (wrap64 (schedulingInterval (flags w5) * Second))
  /\ (0 <= schedulingInterval (flags w5) <= 9223372036 ->
      wrap64 (schedulingInterval (flags w5) * Second)
        = schedulingInterval (flags w5) * Second)
  /\ flags (world_of (schedule three_batches 3 w5)) = flags w5
  /\ k8s_calls (emitted (schedule three_batches 3) w5)
     = concat (map (fun i => k8s_calls (emitted (for_range (batches three_batches i)) w5))
                   (seq (schedules w5) 3)).
Proof.
  apply (completed_turns three_batches 3 w5).
  vm_compute. reflexivity.
Defined.

(** The messages the switch can exit with. *)
Lemma outcome_fatal pods nodes delta :
  (outcome pods nodes delta).1 = false ->
  exists pre msg,
    (outcome pods nodes delta).2 = pre ++ [Fatalf msg]
    /\ (forall e, msg <> TimedOutWaiting e).
Proof.
  unfold outcome.
  destruct (GetType delta =? SchedulingDelta_PLACE).
  - destruct (pods !! GetTaskId delta).
    + destruct (nodes !! GetResourceId delta); [discriminate|]. intros _.
      exists [RLock PodMux; RUnlock PodMux; RLock NodeMux; RUnlock NodeMux].
      eexists. split; [reflexivity | discriminate].
    + intros _. exists [RLock PodMux; RUnlock PodMux].
      eexists. split; [reflexivity | discriminate].
  - destruct ((GetType delta =? SchedulingDelta_PREEMPT)
              || (GetType delta =? SchedulingDelta_MIGRATE)).
    + destruct (pods !! GetTaskId delta); [discriminate|]. intros _.
      exists [RLock PodMux; RUnlock PodMux].
      eexists. split; [reflexivity | discriminate].
    + destruct (GetType delta =? SchedulingDelta_NOOP); [discriminate|].
      intros _. exists []. eexists. split; [reflexivity | discriminate].
Qed.

Lemma batch_outcome_fatal pods nodes deltas :
  (batch_outcome pods nodes deltas).1 = false ->
  exists pre msg,
    (batch_outcome pods nodes deltas).2 = pre ++ [Fatalf msg]
    /\ (forall e, msg <> TimedOutWaiting e).
Proof.
  induction deltas as [|delta rest IH]; simpl; [discriminate|].
  pose proof (outcome_fatal pods nodes delta) as Hd.
  destruct (outcome pods nodes delta) as [b evs]. simpl in *. destruct b; simpl.
  - intros Hr. destruct (IH Hr) as (pre & msg & Hpre & Hmsg).
    exists (evs ++ pre), msg. rewrite Hpre, app_assoc. auto.
  - intros _. apply Hd. reflexivity.
Qed.

(** X8: the only way out of the loop, as far as the loop's own code goes
    (the calls into packages firmament and k8sclient are taken to return).
    When the process exits during [n] turns, it is in some turn [k] below
    [n], with status 255, on a fatal log line that is the last thing in the
    trace and is one of the four messages of the switch; the batch at fault
    is the one of RPC [k], the [k] turns before it completed with one call of
    [time.Sleep] each (the clock has advanced by [k] times the duration the
    code computes when that is positive, and not at all otherwise), and
    after the fatal line the loop neither sleeps nor asks the engine
    again. *)
Theorem loop_exits_only_on_fatal_delta (fc : FirmamentSchedulerClient)
    (n : nat) (w : World) :
  returned (schedule fc n w) = false ->
  exists (k : nat) (pre : list Event) (msg : FatalMsg) (w' : World),
    (k < n)%nat
    /\ schedule fc n w = Exited 255 w'
    /\ trace w' = trace w ++ pre ++ [Fatalf msg]
    /\ (forall e, msg <> TimedOutWaiting e)
    /\ schedules w' = (schedules w + S k)%nat
    /\ now w' = now w + Z.of_nat k
                         * Z.max 0 (wrap64 (schedulingInterval (flags w) * Second))
    /\ length (List.filter is_slept pre) = k
    /\ returned (for_range (batches fc (schedules w + k)) w) = false.
Proof.
  revert w. induction n as [|n IH]; intros w Hret; [discriminate|].
  rewrite schedule_S, schedule_iteration_run in Hret |- *.
  destruct (batch_outcome (TaskIDToPod w) (ResIDToNode w)
              (batches fc (schedules w))) as [b evs] eqn:Hb.
  simpl in Hret |- *. destruct b.
  - set (w1 := after_turn (length (batches fc (schedules w))) evs w) in *.
    destruct (IH w1 Hret) as (k & pre & msg & w' & Hk & Hrun & Htr & Hmsg
                              & Hsch & Hnow & Hsl & Hbad).
    exists (S k),
      (Infof (length (batches fc (schedules w))) :: evs
         ++ Slept (sleep_duration w) :: pre), msg, w'.
    split; [lia|]. split; [exact Hrun|]. split.
    { rewrite Htr. unfold w1, after_turn. cbn [trace].
      rewrite <- !app_assoc. simpl. rewrite <- !app_assoc. reflexivity. }
    split; [exact Hmsg|]. split.
    { rewrite Hsch. unfold w1, after_turn. cbn [schedules]. lia. }
    split.
    { rewrite Hnow. unfold w1, after_turn, sleep_duration. cbn [now flags]. lia. }
    split.
    { change (List.filter is_slept (Infof ?i :: ?l)) with (List.filter is_slept l).
      rewrite List.filter_app, length_app.
      change (List.filter is_slept (Slept ?d :: ?l))
        with (Slept d :: List.filter is_slept l).
      simpl length. rewrite Hsl.
      pose proof (batch_outcome_no_sleep (TaskIDToPod w) (ResIDToNode w)
                    (batches fc (schedules w))) as Hnone.
      rewrite Hb in Hnone. simpl in Hnone. rewrite Hnone. reflexivity. }
    rewrite for_range_returned in Hbad |- *.
    unfold w1, after_turn in Hbad. cbn [TaskIDToPod ResIDToNode schedules] in Hbad.
    replace (schedules w + S k)%nat with (S (schedules w) + k)%nat by lia.
    exact Hbad.
  - destruct (batch_outcome_fatal (TaskIDToPod w) (ResIDToNode w)
                (batches fc (schedules w))) as (pre & msg & Hpre & Hmsg).
    { rewrite Hb. reflexivity. }
    rewrite Hb in Hpre. simpl in Hpre. subst evs.
    exists 0%nat, (Infof (length (batches fc (schedules w))) :: pre), msg.
    eexists. split; [lia|]. split; [reflexivity|].
    cbn [trace extend count_schedule schedules now].
    split; [reflexivity|]. split; [exact Hmsg|]. split; [lia|].
    split; [lia|]. split.
    { change (List.filter is_slept (Infof ?i :: ?l)) with (List.filter is_slept l).
      pose proof (batch_outcome_no_sleep (TaskIDToPod w) (ResIDToNode w)
                    (batches fc (schedules w))) as Hnone.
      rewrite Hb in Hnone. simpl in Hnone.
      rewrite List.filter_app in Hnone. apply app_eq_nil in Hnone.
      destruct Hnone as [Hnone _]. rewrite Hnone. reflexivity. }
    rewrite for_range_returned, Nat.add_0_r, Hb. reflexivity.
Qed.

Lemma loop_exits_only_on_fatal_delta_witness :
  exists (k : nat) (pre : list Event) (msg : FatalMsg) (w' : World),
    (k < 3)%nat
    /\ schedule (engine (fun _ => true)
                   [[mkDelta SchedulingDelta_PLACE 5 "r1"];
                    [mkDelta SchedulingDelta_PLACE 99 "r1"]]) 3 w5
       = Exited 255 w'
    /\ trace w' = trace w5 ++ pre ++ [Fatalf msg]
    /\ (forall e, msg <> TimedOutWaiting e)
    /\ schedules w' = (schedules w5 + S k)%nat
    /\ now w' = now w5 + Z.of_nat k
                          * Z.max 0 (wrap64 (schedulingInterval (flags w5) * Second))
    /\ length (List.filter is_slept pre) = k
    /\ returned (for_range
                   (batches (engine (fun _ => true)
                               [[mkDelta SchedulingDelta_PLACE 5 "r1"];
                                [mkDelta SchedulingDelta_PLACE 99 "r1"]])
                            (schedules w5 + k)) w5) = false.
Proof.
  apply (loop_exits_only_on_fatal_delta
           (engine (fun _ => true)
              [[mkDelta SchedulingDelta_PLACE 5 "r1"];
               [mkDelta SchedulingDelta_PLACE 99 "r1"]]) 3 w5).
  vm_compute. reflexivity.
Defined.

Lemma batch_outcome_noop pods nodes deltas :
  Forall (fun delta => GetType delta = SchedulingDelta_NOOP) deltas ->
  batch_outcome pods nodes deltas = (true, []).
Proof.
  intros Hall. induction Hall as [|delta rest Hty _ IH]; simpl; [reflexivity|].
  rewrite (outcome_noop _ _ _ Hty), IH. reflexivity.
Qed.

(** X9: idle turns.  While the engine hands out batches that are empty or
    hold NOOP deltas only, the loop keeps turning: each turn logs the size of
    its batch and calls [time.Sleep] with the duration the code computes
    (the scheduling interval times one second, in int64 arithmetic), and
    nothing else happens; no lock is taken and the orchestrator is not
    called. *)
Theorem idle_turns (fc : FirmamentSchedulerClient) (n : nat) (w : World) :
  (forall i, (i < n)%nat ->
     Forall (fun delta => GetType delta = SchedulingDelta_NOOP)
            (batches fc (schedules w + i))) ->
  returned (schedule fc n w) = true
  /\ emitted (schedule fc n) w
     = concat (map (fun i => [Infof (length (batches fc (schedules w + i)));
                              Slept (wrap64 (schedulingInterval (flags w) * Second))])
                   (seq 0 n)).
Proof.
  revert w. induction n as [|n IH]; intros w Hidle.
  - split; [reflexivity|]. unfold emitted. simpl. apply drop_all.
  - assert (Hb : batch_outcome (TaskIDToPod w) (ResIDToNode w)
                   (batches fc (schedules w)) = (true, [])).
    { apply batch_outcome_noop. specialize (Hidle 0%nat).
      rewrite Nat.add_0_r in Hidle. apply Hidle. lia. }
    rewrite emitted_schedule_S, schedule_S, schedule_iteration_run, Hb.
    cbn [fst snd].
    destruct (IH (after_turn (length (batches fc (schedules w))) [] w))
      as [Hret Hev].
    { intros i Hi. cbn [after_turn schedules].
      replace (S (schedules w) + i)%nat with (schedules w + S i)%nat by lia.
      apply Hidle. lia. }
    split; [exact Hret|].
    rewrite Hev. unfold sleep_duration. cbn [after_turn schedules flags].
    change (seq 0 (S n)) with (0%nat :: seq 1 n).
    cbn [map concat app]. rewrite <- seq_shift, map_map, Nat.add_0_r.
    do 3 f_equal. apply map_ext. intros i.
    replace (S (schedules w) + i)%nat with (schedules w + S i)%nat by lia.
    reflexivity.
Qed.

Lemma idle_turns_witness :
  returned (schedule (engine (fun _ => true)
                        [[]; [mkDelta SchedulingDelta_NOOP 7 "r1"]]) 4 w5) = true
  /\ emitted (schedule (engine (fun _ => true)
                          [[]; [mkDelta SchedulingDelta_NOOP 7 "r1"]]) 4) w5
     = concat (map (fun i =>
                      [Infof (length (batches
                                (engine (fun _ => true)
                                   [[]; [mkDelta SchedulingDelta_NOOP 7 "r1"]])
                                (schedules w5 + i)));
                       Slept (wrap64 (schedulingInterval (flags w5) * Second))])
                   (seq 0 4)).
Proof.
  apply (idle_turns (engine (fun _ => true)
                       [[]; [mkDelta SchedulingDelta_NOOP 7 "r1"]]) 4 w5).
  intros i Hi.
  destruct i as [|[|[|[|i]]]]; simpl; repeat constructor.
Defined.

(** ** The readiness gate, check by check *)

Lemma polled_count_check t n w :
  polled t n (count_check w) = polled t (S n) w.
Proof. unfold polled, count_check. simpl. f_equal. lia. Qed.

Lemma WaitFor_step fc n interval deadline w :
  wait.WaitFor (S n) interval deadline (probe fc) w
    = if (health fc (checks w)).1
      then Ret None (count_check (advance interval w))
      else wait.WaitFor n interval deadline (probe fc)
             (count_check (advance interval w)).
Proof.
  simpl. rewrite bind_unfold. simpl. rewrite bind_unfold, probe_run. simpl.
  destruct (health fc (checks w)).1; reflexivity.
Qed.

Lemma WaitFor_last fc interval deadline w :
  wait.WaitFor 0 interval deadline (probe fc) w
    = if (health fc (checks w)).1
      then Ret None (count_check (advance_to deadline w))
      else Ret (Some ErrWaitTimeout) (count_check (advance_to deadline w)).
Proof.
  simpl. rewrite bind_unfold. simpl. rewrite bind_unfold, probe_run. simpl.
  destruct (health fc (checks w)).1; reflexivity.
Qed.

(** The poller, when check [j] (counted from the first tick) is the first
    to answer ready: it returns at tick [j + 1], or at the deadline when the
    ticks have run out. *)
Lemma WaitFor_first_ready fc n interval deadline j w :
  (j <= n)%nat ->
  0 <= interval ->
  now w + Z.of_nat n * interval <= deadline ->
  first_ready fc w j ->
  wait.WaitFor n interval deadline (probe fc) w
    = Ret None (polled (if (j <? n)%nat
                        then now w + Z.of_nat (S j) * interval
                        else deadline) (S j) w).
Proof.
  intros Hj Hi. revert j w Hj.
  induction n as [|n IH]; intros j w Hj Hle [Hbefore Hat].
  - assert (j = 0%nat) as -> by lia. rewrite Nat.add_0_r in Hat.
    rewrite WaitFor_last, Hat. simpl.
    unfold polled, count_check, advance_to. simpl. do 2 f_equal; lia.
  - rewrite WaitFor_step. destruct j as [|j].
    + rewrite Nat.add_0_r in Hat. rewrite Hat. simpl.
      unfold polled, count_check, advance. simpl. do 2 f_equal; lia.
    + assert (H0 : (health fc (checks w)).1 = false).
      { specialize (Hbefore 0%nat). rewrite Nat.add_0_r in Hbefore.
        apply Hbefore. lia. }
      rewrite H0.
      rewrite (IH j (count_check (advance interval w))).
      * rewrite polled_count_check. unfold polled, advance. simpl.
        change (S j <? S n)%nat with (j <? n)%nat.
        destruct (j <? n)%nat; do 2 f_equal; lia.
      * lia.
      * unfold count_check, advance. simpl. lia.
      * split.
        -- intros i Hlt. unfold count_check, advance. simpl.
           replace (S (checks w + i)) with (checks w + S i)%nat by lia.
           apply Hbefore. lia.
        -- unfold count_check, advance. simpl.
           replace (S (checks w + j)) with (checks w + S j)%nat by lia.
           exact Hat.
Qed.



(** The shape of every run of the poller: some checks, at most one per
    tick and one more, and a clock between the start and the deadline. *)
Lemma WaitFor_shape fc n interval deadline w :
  0 <= interval ->
  now w + Z.of_nat n * interval <= deadline ->
  exists r t c,
    wait.WaitFor n interval deadline (probe fc) w = Ret r (polled t c w)
    /\ (1 <= c <= S n)%nat /\ now w <= t <= deadline.
Proof.
  intros Hi. revert w. induction n as [|n IH]; intros w Hle.
  - rewrite WaitFor_last.
    destruct (health fc (checks w)).1; eexists _, deadline, 1%nat;
      (split; [|split; lia]);
      unfold polled, count_check, advance_to; simpl; do 2 f_equal; lia.
  - rewrite WaitFor_step. destruct (health fc (checks w)).1.
    + exists None, (now w + interval), 1%nat. split; [|split; lia].
      unfold polled, count_check, advance. simpl. do 2 f_equal; lia.
    + destruct (IH (count_check (advance interval w))) as (r & t & c & Hrun & Hc & Ht).
      { unfold count_check, advance. simpl. lia. }
      exists r, t, (S c). rewrite Hrun, polled_count_check.
      unfold count_check, advance in Ht. simpl in Ht.
      split; [|split; lia]. unfold polled, advance. reflexivity.
Qed.

Lemma gate_budget w :
  now (count_check w) + Z.of_nat 300 * (2 * Second) <= now w + 10 * Minute.
Proof. unfold count_check, Minute, Second. simpl. lia. Qed.

Lemma first_ready_next fc w j :
  first_ready fc w (S j) -> first_ready fc (count_check w) j.
Proof.
  intros [Hbefore Hat]. split.
  - intros i Hlt. unfold count_check. simpl.
    replace (S (checks w + i)) with (checks w + S i)%nat by lia.
    apply Hbefore. lia.
  - unfold count_check. simpl.
    replace (S (checks w + j)) with (checks w + S j)%nat by lia. exact Hat.
Qed.



(** X10: when the gate lets the process through.  If the health check [k]
    calls from now is the first to answer ready, and [k] is at most 301, the
    gate returns after exactly [k + 1] checks, [k] poll intervals of 2 s
    after it started (10 minutes for the last check, made when the time-out
    fires), without logging anything. *)
Theorem gate_returns_at_first_ready (fc : FirmamentSchedulerClient) (w : World)
    (k : nat) :
  first_ready fc w k ->
  (k <= 301)%nat ->
  WaitForFirmamentService fc w
    = Ret tt (polled (now w + Z.min (Z.of_nat k * (2 * Second)) (10 * Minute))
                     (S k) w).
Proof.
  intros Hfirst Hk. rewrite gate_run. destruct k as [|j].
  - destruct Hfirst as [_ Hat]. rewrite Nat.add_0_r in Hat. rewrite Hat.
    unfold polled, count_check. f_equal. f_equal.
    + unfold Minute, Second. simpl. lia.
    + lia.
  - assert (H0 : (health fc (checks w)).1 = false).
    { destruct Hfirst as [Hbefore _]. specialize (Hbefore 0%nat).
      rewrite Nat.add_0_r in Hbefore. apply Hbefore. lia. }
    rewrite H0.
    rewrite (WaitFor_first_ready fc 300 (2 * Second) (now w + 10 * Minute) j
               (count_check w)).
    + rewrite polled_count_check. f_equal. f_equal.
      change (now (count_check w)) with (now w).
      destruct (Nat.ltb_spec j 300); unfold Minute, Second; lia.
    + lia.
    + unfold Second. lia.
    + apply gate_budget.
    + apply first_ready_next. exact Hfirst.
Qed.

Lemma gate_returns_at_first_ready_witness :
  WaitForFirmamentService flaky w5
    = Ret tt (polled (now w5 + Z.min (Z.of_nat 3 * (2 * Second)) (10 * Minute))
                     (S 3) w5).
Proof.
  apply (gate_returns_at_first_ready flaky w5 3).
  - split.
    + intros j Hj. simpl. destruct j as [|[|[|j]]]; [reflexivity..|lia].
    + reflexivity.
  - lia.
Defined.


Lemma gate_shape fc w :
  exists t c,
    WaitForFirmamentService fc w
      = (if returned (WaitForFirmamentService fc w)
         then Ret tt (polled t c w)
         else Exited 255 (emit (Fatalf (TimedOutWaiting ErrWaitTimeout))
                               (polled t c w)))
    /\ (1 <= c <= 302)%nat /\ now w <= t <= now w + 10 * Minute.
Proof.
  rewrite gate_run. destruct (health fc (checks w)).1.
  - exists (now w), 1%nat. simpl. split; [|split; [lia|unfold Minute, Second; lia]].
    unfold polled, count_check. do 2 f_equal. lia.
  - destruct (WaitFor_shape fc 300 (2 * Second) (now w + 10 * Minute)
                (count_check w)) as (r & t & c & Hrun & Hc & Ht).
    { unfold Second. lia. }
    { apply gate_budget. }
    rewrite Hrun, polled_count_check.
    change (now (count_check w)) with (now w) in Ht.
    destruct r as [e|].
    + apply WaitFor_error_late in Hrun. destruct Hrun as [-> _].
      exists t, (S c). simpl. split; [reflexivity|]. lia.
    + exists t, (S c). simpl. split; [reflexivity|]. lia.
Qed.

(** X12: the gate is bounded and only watches.  However the engine
    answers, the gate makes at least one and at most 302 health checks, its
    clock ends between the start and the start plus 10 minutes, it never asks
    the engine for a batch, never calls the orchestrator, leaves the registry
    and the flags alone, and logs nothing but the time-out line on which it
    exits. *)
Theorem gate_is_bounded_and_only_watches (fc : FirmamentSchedulerClient)
    (w : World) :
  (checks w < checks (world_of (WaitForFirmamentService fc w)) <= checks w + 302)%nat
  /\ now w <= now (world_of (WaitForFirmamentService fc w)) <= now w + 10 * Minute
  /\ schedules (world_of (WaitForFirmamentService fc w)) = schedules w
  /\ TaskIDToPod (world_of (WaitForFirmamentService fc w)) = TaskIDToPod w
  /\ ResIDToNode (world_of (WaitForFirmamentService fc w)) = ResIDToNode w
  /\ flags (world_of (WaitForFirmamentService fc w)) = flags w
  /\ emitted (WaitForFirmamentService fc) w
     = (if returned (WaitForFirmamentService fc w) then []
        else [Fatalf (TimedOutWaiting ErrWaitTimeout)]).
Proof.
  destruct (gate_shape fc w) as (t & c & Hrun & Hc & Ht).
  unfold emitted. rewrite Hrun.
  destruct (returned (WaitForFirmamentService fc w)); simpl;
    repeat split; try lia.
  - apply drop_all.
  - apply (drop_app_length (trace w)).
Qed.

(** ** Health checks that fail, as the gate sees them *)




Lemma outcome_calls_exact pods nodes delta :
  (outcome pods nodes delta).1 = true ->
  length (k8s_calls (outcome pods nodes delta).2)
    = if is_noop delta then 0%nat else 1%nat.
Proof.
  unfold outcome, is_noop.
  destruct (GetType delta =? SchedulingDelta_PLACE) eqn:Hplace.
  - apply Z.eqb_eq in Hplace. rewrite Hplace.
    destruct (pods !! GetTaskId delta); [|discriminate].
    destruct (nodes !! GetResourceId delta); [reflexivity | discriminate].
  - destruct ((GetType delta =? SchedulingDelta_PREEMPT)
              || (GetType delta =? SchedulingDelta_MIGRATE)) eqn:Hrem.
    + apply orb_true_iff in Hrem. rewrite !Z.eqb_eq in Hrem.
      destruct (pods !! GetTaskId delta); [|discriminate].
      destruct Hrem as [-> | ->]; reflexivity.
    + destruct (GetType delta =? SchedulingDelta_NOOP); [reflexivity | discriminate].
Qed.

(** X13: no deduplication, no batching.  When a batch runs to its end, the
    number of orchestrator calls made is exactly the number of its deltas
    that are not NOOP: every PLACE, PREEMPT and MIGRATE delta gets a call of
    its own, also when the same delta occurs several times. *)
Theorem one_call_per_effective_delta (deltas : list SchedulingDelta) (w : World) :
  returned (for_range deltas w) = true ->
  length (k8s_calls (emitted (for_range deltas) w))
    = length (List.filter (fun delta => negb (is_noop delta)) deltas).
Proof.
  rewrite for_range_emitted, for_range_returned.
  generalize (TaskIDToPod w) (ResIDToNode w). intros pods nodes.
  induction deltas as [|delta rest IH]; simpl; [reflexivity|].
  pose proof (outcome_calls_exact pods nodes delta) as Hd.
  destruct (outcome pods nodes delta) as [b evs]. simpl in *.
  destruct b; simpl; [|discriminate].
  intros Hrest. rewrite k8s_calls_append, length_app, (Hd eq_refl), (IH Hrest).
  destruct (is_noop delta); reflexivity.
Qed.

Lemma one_call_per_effective_delta_witness :
  length (k8s_calls (emitted (for_range
            [mkDelta SchedulingDelta_PLACE 5 "r1";
             mkDelta SchedulingDelta_NOOP 5 "r1";
             mkDelta SchedulingDelta_PLACE 5 "r1";
             mkDelta SchedulingDelta_PREEMPT 5 ""]) w5))
    = length (List.filter (fun delta => negb (is_noop delta))
                [mkDelta SchedulingDelta_PLACE 5 "r1";
                 mkDelta SchedulingDelta_NOOP 5 "r1";
                 mkDelta SchedulingDelta_PLACE 5 "r1";
                 mkDelta SchedulingDelta_PREEMPT 5 ""]).
Proof.
  apply (one_call_per_effective_delta
           [mkDelta SchedulingDelta_PLACE 5 "r1";
            mkDelta SchedulingDelta_NOOP 5 "r1";
            mkDelta SchedulingDelta_PLACE 5 "r1";
            mkDelta SchedulingDelta_PREEMPT 5 ""] w5).
  vm_compute. reflexivity.
Defined.

(** ** Start-up *)

(** X14: the loop starts only behind the gate.  If a run of [main] has asked
    the engine for a batch, or has called the orchestrator, then dialling
    the engine had succeeded and the readiness gate had returned; the loop
    then runs from the world the gate left.  A process whose engine cannot be
    dialled or never gets ready has scheduled nothing. *)
Theorem loop_starts_only_behind_the_gate
    (New : string -> FirmamentSchedulerClient + string) (n : nat) (w : World) :
  schedules (world_of (run (main New n w))) <> schedules w
    \/ k8s_calls (main_emitted New n w) <> [] ->
  exists fc w1,
    New (config_GetFirmamentAddress w) = inl fc
    /\ WaitForFirmamentService fc w = Ret tt w1
    /\ run (main New n w) = schedule fc n w1.
Proof.
  unfold main_emitted, main. cbn [run].
  destruct (New (config_GetFirmamentAddress w)) as [fc|err].
  - rewrite bind_unfold.
    destruct (gate_shape fc w) as (t & c & Hrun & _).
    destruct (WaitForFirmamentService fc w) as [[] w1|s w1] eqn:Hgate.
    + intros _. exists fc, w1. repeat split. exact Hgate.
    + simpl in Hrun. inversion Hrun; subst. cbn [world_of emit polled schedules trace].
      rewrite (drop_app_length (trace w)). simpl. intros [H|H]; contradiction.
  - unfold panic. cbn [world_of]. rewrite drop_all. simpl.
    intros [H|H]; contradiction.
Qed.

Lemma loop_starts_only_behind_the_gate_witness :
  exists fc w1,
    dial_ok late_engine (config_GetFirmamentAddress w5) = inl fc
    /\ WaitForFirmamentService fc w5 = Ret tt w1
    /\ run (main (dial_ok late_engine) 2 w5) = schedule fc 2 w1.
Proof.
  apply (loop_starts_only_behind_the_gate (dial_ok late_engine) 2 w5).
  left. vm_compute. discriminate.
Defined.

(** [main] against an engine that gets ready at the third health check and
    then hands out one PLACE: two poll intervals at the gate, one bind, two
    turns of the loop. *)
Example main_end_to_end :
  run (main (dial_ok late_engine) 2 w5)
    = Ret tt (mkWorld (TaskIDToPod w5) (ResIDToNode w5) defaultFlags
                (4 * Second + 20 * Second) 3 2
                [Infof 1; RLock PodMux; RUnlock PodMux; RLock NodeMux;
                 RUnlock NodeMux; BindPodToNode "podA" "nsA" "nodeX";
                 Slept (10 * Second); Infof 0; Slept (10 * Second)]).
Proof. vm_compute. reflexivity. Qed.

(** [main] when the engine cannot be dialled: a panic, before any health
    check. *)
Example main_dial_failure :
  main dial_refused 2 w5
    = mkStartup (firmamentAddress defaultFlags) (Exited 2 w5).
Proof. reflexivity. Qed.

(** ** The flags after [init] *)

Lemma substring_whole (s : string) : String.substring 0 (String.length s) s = s.
Proof. induction s as [|c s IH]; simpl; [reflexivity | rewrite IH; reflexivity]. Qed.

Lemma substring_prefix (a b : string) :
  String.substring 0 (String.length a) (String.append a b) = a.
Proof.
  induction a as [|c a IH]; simpl.
  - destruct b; reflexivity.
  - rewrite IH. reflexivity.
Qed.

Lemma substring_after_separator (a p : string) (sep : Ascii.ascii) :
  String.substring (S (String.length a)) (String.length p)
            (String.append a (String sep p)) = p.
Proof.
  induction a as [|c a IH]; simpl.
  - apply substring_whole.
  - exact IH.
Qed.

Lemma get_separator (a p : string) (sep : Ascii.ascii) :
  String.get (String.length a) (String.append a (String sep p)) = Some sep.
Proof. induction a as [|c a IH]; simpl; [reflexivity | exact IH]. Qed.

Lemma length_append (a b : string) :
  String.length (String.append a b) = (String.length a + String.length b)%nat.
Proof. induction a as [|c a IH]; simpl; [reflexivity | rewrite IH; reflexivity]. Qed.

(** X15: what [init] makes of the engine address.  Whatever the flags were
    parsed to, afterwards [firmamentAddress] is the parsed address, a colon
    and the parsed port; both can be read back from it (the address is its
    first characters, the port what follows the colon at position length of
    the address, also when the address itself holds colons), and the eight
    other flags are as parsed. *)
Theorem init_joins_address_and_port (parsed : Flags) :
  firmamentAddress (init parsed)
    = String.append (firmamentAddress parsed)
                    (String.append ":" (firmamentPort parsed))
  /\ String.length (firmamentAddress (init parsed))
     = (String.length (firmamentAddress parsed) + 1
        + String.length (firmamentPort parsed))%nat
  /\ String.substring 0 (String.length (firmamentAddress parsed))
               (firmamentAddress (init parsed)) = firmamentAddress parsed
  /\ String.get (String.length (firmamentAddress parsed))
                (firmamentAddress (init parsed)) = String.get 0 ":"
  /\ String.substring (S (String.length (firmamentAddress parsed)))
               (String.length (firmamentPort parsed))
               (firmamentAddress (init parsed)) = firmamentPort parsed
  /\ (schedulerName (init parsed), firmamentPort (init parsed),
      pprofAddress (init parsed), kubeConfig (init parsed),
      kubeVersion (init parsed), statsServerAddress (init parsed),
      schedulingInterval (init parsed), enablePprof (init parsed))
     = (schedulerName parsed, firmamentPort parsed, pprofAddress parsed,
        kubeConfig parsed, kubeVersion parsed, statsServerAddress parsed,
        schedulingInterval parsed, enablePprof parsed).
Proof.
  unfold init, strings_Join. cbn [firmamentAddress fold_left].
  split; [reflexivity|]. split.
  { rewrite !length_append. cbn [String.length]. lia. }
  split; [apply substring_prefix|].
  split; [apply get_separator|].
  split; [apply substring_after_separator | reflexivity].
Qed.

(** With no flag on the command line, the engine address is the default
    service name and port. *)
Example init_defaults :
  firmamentAddress (init defaultFlags) = "firmament-service.kube-system:9090"%string.
Proof. reflexivity. Qed.


(** ** The sleep of the loop at the edges of the flag *)

(** With a scheduling interval of -5 the loop still calls [time.Sleep] every
    turn, with -5 s, and the clock does not move. *)
Example sleep_negative_interval :
  emitted (schedule never_ready 2) (with_flags backwardFlags w5)
    = [Infof 0; Slept (-5 * Second); Infof 0; Slept (-5 * Second)]
  /\ now (world_of (schedule never_ready 2 (with_flags backwardFlags w5))) = 0.
Proof. split; vm_compute; reflexivity. Qed.

(** With an interval of 9223372037 s the product leaves int64 and wraps to
    a negative duration: the loop does not pause at all. *)
Example sleep_overflowing_interval :
  emitted (schedule never_ready 1) (with_flags hugeFlags w5)
    = [Infof 0; Slept (9223372037 * Second - 2 ^ 64)]
  /\ now (world_of (schedule never_ready 1 (with_flags hugeFlags w5))) = 0.
Proof. split; vm_compute; reflexivity. Qed.
